(** * Shallow embedding of the DAIOE weighting pipeline (scripts/02_weighting_AI.py)

    The pandas data frames of the script are modelled as lists of records, one
    record per row, in row order.  A missing cell (pandas NaN / NA) is [None].
    Metric values are rationals: the arithmetic of the aggregates is modelled
    exactly, floating-point rounding is not modelled. *)

From Stdlib Require Import List String Ascii ZArith QArith Bool Lia.
From Stdlib Require Import Sorting.Permutation Sorting.Sorted Lqa.
Import ListNotations.

Open Scope Z_scope.
Open Scope string_scope.

(** ** Python exceptions raised by the script, and a result type *)

Inductive py_error :=
  | KeyError            (* missing column / missing split part *)
  | ValueError          (* raised explicitly by the script *)
  | MergeError          (* pandas merge validation, [validate="many_to_one"] *)
  | FileNotFoundError.  (* missing input file *)

Inductive Result (A : Type) :=
  | Ok (a : A)
  | Err (e : py_error).
Arguments Ok {A} a.
Arguments Err {A} e.

Definition rbind {A B} (m : Result A) (k : A -> Result B) : Result B :=
  match m with Ok a => k a | Err e => Err e end.

Notation "'let!' x := m 'in' k" := (rbind m (fun x => k))
  (at level 200, x name, m at level 100, k at level 200).
Notation "'let!' ' p := m 'in' k" := (rbind m (fun x => match x with p => k end))
  (at level 200, p pattern, m at level 100, k at level 200).

(** ** Python string methods used by the script *)

(** [s.split(" ", 1)]: the part before the first space, and the part after it
    when there is a space. *)
Fixpoint split_once (s : string) : string * option string :=
  match s with
  | EmptyString => (EmptyString, None)
  | String c rest =>
      if Ascii.eqb c " "%char then (EmptyString, Some rest)
      else let (a, b) := split_once rest in (String c a, b)
  end.

Fixpoint zeros (n : nat) : string :=
  match n with O => EmptyString | S k => String "0"%char (zeros k) end.

(** [s.zfill(width)]: pads with '0' on the left up to [width] characters,
    after a leading sign if there is one; longer strings are kept. *)
Definition zfill (width : nat) (s : string) : string :=
  if (width <=? String.length s)%nat then s
  else
    let fill := zeros (width - String.length s) in
    match s with
    | String c rest =>
        if Ascii.eqb c "+"%char || Ascii.eqb c "-"%char
        then String c (fill ++ rest)
        else fill ++ s
    | EmptyString => fill
    end.

(** [s.lstrip("0")] *)
Fixpoint lstrip_zeros (s : string) : string :=
  match s with
  | String c rest => if Ascii.eqb c "0"%char then lstrip_zeros rest else s
  | EmptyString => EmptyString
  end.

(** [astype(str)] of an object cell as pandas 2 computes it: a missing value
    is rendered as "nan" (pandas 3 is modelled by [astype_str_in] below). *)
Definition astype_str (cell : option string) : string :=
  match cell with Some s => s | None => "nan" end.

(** The [.str] accessor maps a function over a column, keeping missing cells. *)
Definition str_map (f : string -> string) (col : list (option string)) :=
  map (option_map f) col.

(** ** Taxonomies and the raw input table *)

Inductive Taxonomy := ssyk2012 | ssyk96.

Definition taxonomy_name (t : Taxonomy) : string :=
  match t with ssyk2012 => "ssyk2012" | ssyk96 => "ssyk96" end.

Definition Z_to_string (z : Z) : string :=
  match z with 1 => "1" | 2 => "2" | 3 => "3" | 4 => "4" | _ => "?" end.

(** [f"{taxonomy}_{level}"] *)
Definition code_col_name (t : Taxonomy) (level : Z) : string :=
  taxonomy_name t ++ "_" ++ Z_to_string level.

(** A row of the raw DAIOE file: its year, its text cells by column name, and
    its values in the [daioe_*] columns, in column order. *)
Record RawRow := {
  rr_year : Z;
  rr_text : list (string * option string);
  rr_metrics : list (option Q)
}.

Record RawTable := {
  rt_columns : list string;
  rt_rows : list RawRow
}.

Definition text_cell (col : string) (r : RawRow) : option string :=
  match find (fun p => String.eqb (fst p) col) (rr_text r) with
  | Some (_, v) => v
  | None => None
  end.

Definition column (col : string) (t : RawTable) : list (option string) :=
  map (text_cell col) (rt_rows t).

(** [ensure_columns] *)
Definition ensure_columns (cols : list string) (required : list string) : Result unit :=
  let missing := filter (fun c => negb (existsb (String.eqb c) cols)) required in
  match missing with [] => Ok tt | _ => Err KeyError end.

(** ** Code normalizer: [split_code_label] *)

(** [series.astype(str).str.split(" ", n=1, expand=True)] builds a frame with
    as many columns as the longest split (0 for an empty series); the
    [fillna({0: "", 1: ""})] fills the short rows, and [parts[0]], [parts[1]]
    raise [KeyError] when that column does not exist. *)
Definition split_code_label (series : list (option string))
  : Result (list (option string) * list (option string)) :=
  let parts := map (fun c => split_once (astype_str c)) series in
  let width := fold_right (fun p w => Nat.max w (match snd p with Some _ => 2 | None => 1 end)%nat)
                 0%nat parts in
  if (width <? 2)%nat then Err KeyError
  else Ok (map (fun p => Some (fst p)) parts,
           map (fun p => Some (match snd p with Some l => l | None => EmptyString end)) parts).

(** A row of the prepared frame ([code1..4], [label1..4], metrics). *)
Record PrepRow := {
  year : Z;
  code1 : option string; code2 : option string;
  code3 : option string; code4 : option string;
  label1 : option string; label2 : option string;
  label3 : option string; label4 : option string;
  metrics : list (option Q)
}.

(** [f"code{level}"] and [f"label{level}"] *)
Definition code_at (level : Z) (r : PrepRow) : option string :=
  match level with 1 => code1 r | 2 => code2 r | 3 => code3 r | _ => code4 r end.
Definition label_at (level : Z) (r : PrepRow) : option string :=
  match level with 1 => label1 r | 2 => label2 r | 3 => label3 r | _ => label4 r end.

Definition mk_prep (rr : RawRow)
  (c1 l1 c2 l2 c3 l3 c4 l4 : option string) : PrepRow :=
  {| year := rr_year rr; code1 := c1; code2 := c2; code3 := c3; code4 := c4;
     label1 := l1; label2 := l2; label3 := l3; label4 := l4;
     metrics := rr_metrics rr |}.

Fixpoint zip_prep (rows : list RawRow)
  (c1 l1 c2 l2 c3 l3 c4 l4 : list (option string)) : list PrepRow :=
  match rows, c1, l1, c2, l2, c3, l3, c4, l4 with
  | rr :: rows', a1 :: c1', b1 :: l1', a2 :: c2', b2 :: l2',
    a3 :: c3', b3 :: l3', a4 :: c4', b4 :: l4' =>
      mk_prep rr a1 b1 a2 b2 a3 b3 a4 b4
        :: zip_prep rows' c1' l1' c2' l2' c3' l3' c4' l4'
  | _, _, _, _, _, _, _, _, _ => []
  end.

(** [prepare_raw_dataframe]: the codes are split from the label cells level
    by level (4, 3, 2, 1), [code4] is zero-filled to 4 characters and the
    codes of levels 1-3 have their leading zeros stripped. *)
Definition prepare_raw_dataframe (raw : RawTable) (t : Taxonomy)
  : Result (list PrepRow * list string) :=
  let cols := filter (fun c => negb (String.eqb c "Unnamed: 0")) (rt_columns raw) in
  let! _ := ensure_columns cols ["year"] in
  let daioe_cols := filter (String.prefix "daioe_") cols in
  match daioe_cols with
  | [] => Err KeyError
  | _ =>
    let! _ := ensure_columns cols (map (code_col_name t) [4; 3; 2; 1]) in
    let! '(c4, l4) := split_code_label (column (code_col_name t 4) raw) in
    let! '(c3, l3) := split_code_label (column (code_col_name t 3) raw) in
    let! '(c2, l2) := split_code_label (column (code_col_name t 2) raw) in
    let! '(c1, l1) := split_code_label (column (code_col_name t 1) raw) in
    let c4' := str_map (zfill 4) c4 in
    let c1' := str_map lstrip_zeros c1 in
    let c2' := str_map lstrip_zeros c2 in
    let c3' := str_map lstrip_zeros c3 in
    Ok (zip_prep (rt_rows raw) c1' l1 c2' l2 c3' l3 c4' l4, daioe_cols)
  end.

(** *** Missing code-label cells across pandas versions *)

(** pandas 2 renders a missing cell as the string "nan" in [astype(str)];
    pandas 3 (its default string dtype) keeps it missing.  The repository
    pins no pandas version, so the missing-cell path is modelled for both. *)
Inductive pandas_version := pandas2 | pandas3.

Definition astype_str_in (v : pandas_version) (cell : option string) : option string :=
  match v with
  | pandas2 => Some (astype_str cell)
  | pandas3 => cell
  end.

(** [.str.split(" ", n=1, expand=True)] on one rendered cell: its parts 0
    and 1, a missing cell giving two missing parts. *)
Definition split_part_in (v : pandas_version) (cell : option string)
  : option string * option string :=
  match astype_str_in v cell with
  | Some s => let (a, b) := split_once s in (Some a, b)
  | None => (None, None)
  end.

(** [split_code_label] in either version, with
    [parts.fillna({0: "", 1: ""})] filling the missing parts. *)
Definition split_code_label_in (v : pandas_version) (series : list (option string))
  : Result (list (option string) * list (option string)) :=
  let parts := map (split_part_in v) series in
  let width := fold_right (fun p w => Nat.max w (match snd p with Some _ => 2 | None => 1 end)%nat)
                 0%nat parts in
  if (width <? 2)%nat then Err KeyError
  else Ok (map (fun p => Some (match fst p with Some a => a | None => EmptyString end)) parts,
           map (fun p => Some (match snd p with Some l => l | None => EmptyString end)) parts).

(** [prepare_raw_dataframe] in either version. *)
Definition prepare_raw_dataframe_in (v : pandas_version) (raw : RawTable) (t : Taxonomy)
  : Result (list PrepRow * list string) :=
  let cols := filter (fun c => negb (String.eqb c "Unnamed: 0")) (rt_columns raw) in
  let! _ := ensure_columns cols ["year"] in
  let daioe_cols := filter (String.prefix "daioe_") cols in
  match daioe_cols with
  | [] => Err KeyError
  | _ =>
    let! _ := ensure_columns cols (map (code_col_name t) [4; 3; 2; 1]) in
    let! '(c4, l4) := split_code_label_in v (column (code_col_name t 4) raw) in
    let! '(c3, l3) := split_code_label_in v (column (code_col_name t 3) raw) in
    let! '(c2, l2) := split_code_label_in v (column (code_col_name t 2) raw) in
    let! '(c1, l1) := split_code_label_in v (column (code_col_name t 1) raw) in
    let c4' := str_map (zfill 4) c4 in
    let c1' := str_map lstrip_zeros c1 in
    let c2' := str_map lstrip_zeros c2 in
    let c3' := str_map lstrip_zeros c3 in
    Ok (zip_prep (rt_rows raw) c1' l1 c2' l2 c3' l3 c4' l4, daioe_cols)
  end.

(** ** Generic frame operations *)

(** Stable insertion sort (the row order produced by pandas' sorting of group
    keys and of [sort_values]). *)
Fixpoint insert_by {A} (leb : A -> A -> bool) (x : A) (l : list A) : list A :=
  match l with
  | [] => [x]
  | y :: l' => if leb x y then x :: y :: l' else y :: insert_by leb x l'
  end.

Fixpoint sort_by {A} (leb : A -> A -> bool) (l : list A) : list A :=
  match l with
  | [] => []
  | x :: l' => insert_by leb x (sort_by leb l')
  end.

(** Distinct elements, first occurrence kept. *)
Fixpoint dedup_from {A} (eqb : A -> A -> bool) (seen : list A) (l : list A) : list A :=
  match l with
  | [] => []
  | x :: l' =>
      if existsb (eqb x) seen then dedup_from eqb seen l'
      else x :: dedup_from eqb (x :: seen) l'
  end.

Definition dedup {A} (eqb : A -> A -> bool) (l : list A) : list A := dedup_from eqb [] l.

Fixpoint has_dup (l : list string) : bool :=
  match l with
  | [] => false
  | x :: l' => existsb (String.eqb x) l' || has_dup l'
  end.

Definition opt_str_eqb (a b : option string) : bool :=
  match a, b with
  | Some x, Some y => String.eqb x y
  | None, None => true
  | _, _ => false
  end.

Definition opt_str_leb (a b : option string) : bool :=
  match a, b with
  | Some x, Some y => String.leb x y
  | None, _ => true
  | Some _, None => false
  end.

(** [left.merge(right, on=key, how="left")]: every left row is repeated once
    per matching right row, or kept once with a missing right value. *)
Definition left_merge {A K B} (keqb : K -> K -> bool) (lkey : A -> K)
  (right : list (K * B)) (left : list A) : list (A * option B) :=
  flat_map (fun a =>
    match filter (fun kb => keqb (lkey a) (fst kb)) right with
    | [] => [(a, None)]
    | ms => map (fun kb => (a, Some (snd kb))) ms
    end) left.

(** ** Employment attacher: [attach_employment] *)

(** A row of the SCB employment file (the [year] column is dropped on load);
    [s_code] is the code cell rendered by [astype(str)]. *)
Record ScbRow := {
  s_level : Z;
  s_code : string;
  s_value : Z
}.

Record LeafRow := {
  lr : PrepRow;
  emp : option Z
}.

Definition attach_employment (df : list PrepRow) (scb : list ScbRow) : Result (list LeafRow) :=
  let scb_lvl4 := filter (fun s => Z.eqb (s_level s) 4) scb in
  match scb_lvl4 with
  | [] => Err ValueError
  | _ =>
    let right := map (fun s => (zfill 4 (s_code s), s_value s)) scb_lvl4 in
    (* validate="many_to_one": the right keys must be unique *)
    if has_dup (map fst right) then Err MergeError
    else Ok (map (fun '(r, v) => {| lr := r; emp := v |})
               (left_merge opt_str_eqb code4
                  (map (fun kv => (Some (fst kv), snd kv)) right) df))
  end.

(** ** Children counter: [compute_children_maps] *)

Definition key2 := (Z * option string)%type.

Definition key2_eqb (a b : key2) : bool :=
  Z.eqb (fst a) (fst b) && opt_str_eqb (snd a) (snd b).

Definition key2_leb (a b : key2) : bool :=
  Z.ltb (fst a) (fst b) || (Z.eqb (fst a) (fst b) && opt_str_leb (snd a) (snd b)).

Definition is_some {A} (o : option A) : bool :=
  match o with Some _ => true | None => false end.

(** The keys of [df.groupby(["year", code_col])]: sorted, without rows whose
    key has a missing value. *)
Definition group_keys2 (level : Z) (df : list LeafRow) : list key2 :=
  sort_by key2_leb
    (dedup key2_eqb
       (filter (fun k => is_some (snd k))
          (map (fun r => (year (lr r), code_at level (lr r))) df))).

Definition in_group2 (level : Z) (k : key2) (r : LeafRow) : bool :=
  key2_eqb (year (lr r), code_at level (lr r)) k.

(** [nunique()]: the number of distinct non-missing values. *)
Definition nunique (col : list (option string)) : Z :=
  Z.of_nat (List.length (dedup opt_str_eqb (filter is_some col))).

Definition compute_children_maps (df : list LeafRow) (level : Z) : list (key2 * Z) :=
  if Z.eqb level 4 then
    map (fun k => (k, 1)) (group_keys2 4 df)
  else
    map (fun k => (k, nunique (map (fun r => code_at (level + 1) (lr r))
                                   (filter (in_group2 level k) df))))
        (group_keys2 level df).

(** ** Aggregation engine: [aggregate_level] *)

Inductive Method := weighted | simple.

Definition key3 := (Z * option string * option string)%type.

Definition key3_eqb (a b : key3) : bool :=
  let '(y1, c1, l1) := a in let '(y2, c2, l2) := b in
  Z.eqb y1 y2 && opt_str_eqb c1 c2 && opt_str_eqb l1 l2.

Definition key3_leb (a b : key3) : bool :=
  let '(y1, c1, l1) := a in let '(y2, c2, l2) := b in
  Z.ltb y1 y2 ||
  (Z.eqb y1 y2 && ((opt_str_leb c1 c2 && negb (opt_str_eqb c1 c2)) ||
                   (opt_str_eqb c1 c2 && opt_str_leb l1 l2))).

Definition key3_of (level : Z) (r : LeafRow) : key3 :=
  (year (lr r), code_at level (lr r), label_at level (lr r)).

(** The keys of [groupby(["year", code_col, label_col])]: sorted, without
    the keys that have a missing value ([dropna=True]). *)
Definition group_keys3 (level : Z) (df : list LeafRow) : list key3 :=
  sort_by key3_leb
    (dedup key3_eqb
       (filter (fun k => is_some (snd (fst k)) && is_some (snd k))
          (map (key3_of level) df))).

Definition in_group3 (level : Z) (k : key3) (r : LeafRow) : bool :=
  key3_eqb (key3_of level r) k.

Definition metric_at (i : nat) (r : PrepRow) : option Q := nth i (metrics r) None.

Definition emp_q (r : LeafRow) : option Q := option_map inject_Z (emp r).

(** [Series.sum()]: missing values are skipped, the empty sum is 0. *)
Definition pd_sum (col : list (option Q)) : Q :=
  fold_right (fun c acc => match c with Some x => (x + acc)%Q | None => acc end) 0%Q col.

(** [Series.where(mask, 0)] on one cell *)
Definition where0 (mask : bool) (c : option Q) : option Q :=
  if mask then c else Some 0%Q.

(** NaN-propagating product of two cells *)
Definition cell_mul (a b : option Q) : option Q :=
  match a, b with Some x, Some y => Some (x * y)%Q | _, _ => None end.

(** [.replace(0, pd.NA)] *)
Definition replace_zero (q : Q) : option Q :=
  if Qeq_bool q 0 then None else Some q.

Definition cell_div (a : Q) (d : option Q) : option Q :=
  match d with Some x => Some (a / x)%Q | None => None end.

(** The weighted branch for one metric and one group: the [_wx] and [_w]
    helper columns, their group sums and their quotient. *)
Definition weighted_metric (i : nat) (grp : list LeafRow) : option Q :=
  let mask r := is_some (metric_at i (lr r)) in
  let wx := map (fun r => cell_mul (where0 (mask r) (metric_at i (lr r)))
                                   (where0 (mask r) (emp_q r))) grp in
  let w := map (fun r => where0 (mask r) (emp_q r)) grp in
  cell_div (pd_sum wx) (replace_zero (pd_sum w)).

Definition present (col : list (option Q)) : list Q :=
  flat_map (fun c => match c with Some x => [x] | None => [] end) col.

Definition Q_of_nat (n : nat) : Q := inject_Z (Z.of_nat n).

(** [Series.mean()]: the mean of the non-missing values, missing if none. *)
Definition pd_mean (col : list (option Q)) : option Q :=
  match present col with
  | [] => None
  | xs => Some (fold_right Qplus 0%Q xs / Q_of_nat (List.length xs))%Q
  end.

(** The simple branch for one metric and one group. *)
Definition simple_metric (i : nat) (grp : list LeafRow) : option Q :=
  pd_mean (map (fun r => metric_at i (lr r)) grp).

(** A row of an output table. *)
Record OutRow := {
  o_taxonomy : Taxonomy;
  o_level : Z;
  o_code : string;
  o_label : option string;
  o_year : Z;
  o_n_children : option Z;
  o_metrics : list (option Q);
  o_pct : list (option Q)
}.

Definition aggregate_level (df : list LeafRow) (daioe_cols : list string)
  (n_children : Z -> list (key2 * Z)) (t : Taxonomy) (level : Z) (m : Method)
  : Result (list OutRow) :=
  if negb (Z.eqb level 1 || Z.eqb level 2 || Z.eqb level 3) then Err ValueError
  else
    let agg := match m with weighted => weighted_metric | simple => simple_metric end in
    let grouped :=
      map (fun k => (k, map (fun i => agg i (filter (in_group3 level k) df))
                            (seq 0 (List.length daioe_cols))))
          (group_keys3 level df) in
    let merged := left_merge key2_eqb (fun g => (fst (fst (fst g)), snd (fst (fst g))))
                    (n_children level) grouped in
    Ok (map (fun '(((y, c, l), ms), nc) =>
               {| o_taxonomy := t; o_level := level; o_code := astype_str c;
                  o_label := l; o_year := y; o_n_children := nc;
                  o_metrics := ms; o_pct := [] |}) merged).

(** [base_level_four]: the leaf rows, passed through. *)
Definition base_level_four (df : list LeafRow) (daioe_cols : list string)
  (t : Taxonomy) (n_children : list (key2 * Z)) : list OutRow :=
  map (fun '(r, nc) =>
         {| o_taxonomy := t; o_level := 4; o_code := astype_str (code4 (lr r));
            o_label := label4 (lr r); o_year := year (lr r); o_n_children := nc;
            o_metrics := metrics (lr r); o_pct := [] |})
      (left_merge key2_eqb (fun r => (year (lr r), code4 (lr r))) n_children df).

(** ** Percentile ranker: [add_percentiles] *)

(** The 1-based positions at which [x] occurs in the sorted list [s]. *)
Fixpoint tie_positions (x : Q) (s : list Q) (pos : nat) : list nat :=
  match s with
  | [] => []
  | y :: s' =>
      if Qeq_bool y x then pos :: tie_positions x s' (S pos)
      else tie_positions x s' (S pos)
  end.

(** [rank(method="average", pct=True)] of a value [x] among the non-missing
    values [vals] of its group: the values are sorted, [x] gets the average of
    the positions of its ties, divided by the number of values. *)
Definition rank_pct (vals : list Q) (x : Q) : Q :=
  let ps := tie_positions x (sort_by Qle_bool vals) 1 in
  (Q_of_nat (list_sum ps) / Q_of_nat (List.length ps)) / Q_of_nat (List.length vals).

Definition same_year_level (a b : OutRow) : bool :=
  Z.eqb (o_year a) (o_year b) && Z.eqb (o_level a) (o_level b).

Definition metric_col (i : nat) (rows : list OutRow) : list (option Q) :=
  map (fun r => nth i (o_metrics r) None) rows.

(** [df.groupby(["year", "level"])[metric].rank(pct=True)] at row [r]. *)
Definition pct_rank (rows : list OutRow) (i : nat) (r : OutRow) : option Q :=
  match nth i (o_metrics r) None with
  | None => None
  | Some v => Some (rank_pct (present (metric_col i (filter (same_year_level r) rows))) v)
  end.

Definition add_percentiles (rows : list OutRow) (metrics : list string) : list OutRow :=
  map (fun r => {| o_taxonomy := o_taxonomy r; o_level := o_level r; o_code := o_code r;
                   o_label := o_label r; o_year := o_year r;
                   o_n_children := o_n_children r; o_metrics := o_metrics r;
                   o_pct := map (fun i => pct_rank rows i r) (seq 0 (List.length metrics)) |})
      rows.

(** ** Table assembler: [build_pipeline] *)

(** [sort_values(["level", "code", "year"])] *)
Definition out_leb (a b : OutRow) : bool :=
  Z.ltb (o_level a) (o_level b) ||
  (Z.eqb (o_level a) (o_level b) &&
   ((String.ltb (o_code a) (o_code b)) ||
    (String.eqb (o_code a) (o_code b) && Z.leb (o_year a) (o_year b)))).

Definition build_pipeline (df : list LeafRow) (daioe_cols : list string) (t : Taxonomy)
  (n_children : Z -> list (key2 * Z)) (m : Method) : Result (list OutRow) :=
  let lvl4 := base_level_four df daioe_cols t (n_children 4) in
  let! lvl1 := aggregate_level df daioe_cols n_children t 1 m in
  let! lvl2 := aggregate_level df daioe_cols n_children t 2 m in
  let! lvl3 := aggregate_level df daioe_cols n_children t 3 m in
  let combined := (lvl1 ++ lvl2 ++ lvl3 ++ lvl4)%list in
  let ranked := add_percentiles combined daioe_cols in
  Ok (sort_by out_leb ranked).

(** ** The run: [run_weighting], over a store of files *)

Record FileStore := {
  fs_raw : Taxonomy -> option RawTable;       (* data/01_daioe_raw/daioe_<t>.csv *)
  fs_scb : list (string * list ScbRow);       (* data/02_scb_data, by file name *)
  fs_out : list (string * list OutRow)        (* data/03_daioe_aggregated *)
}.

(** Computations of the run: they may raise, and they may write files. *)
Definition PM (A : Type) := FileStore -> Result A * FileStore.

Definition pret {A} (a : A) : PM A := fun fs => (Ok a, fs).

Definition pbind {A B} (m : PM A) (k : A -> PM B) : PM B :=
  fun fs => match m fs with
            | (Ok a, fs') => k a fs'
            | (Err e, fs') => (Err e, fs')
            end.

Definition lift {A} (r : Result A) : PM A := fun fs => (r, fs).

Notation "x <- m ;; k" := (pbind m (fun x => k))
  (at level 61, m at next level, right associativity).
Notation "' p <- m ;; k" := (pbind m (fun x => match x with p => k end))
  (at level 61, p pattern, m at next level, right associativity).

Definition load_daioe_raw (t : Taxonomy) : PM RawTable :=
  fun fs => match fs_raw fs t with
            | Some raw => (Ok raw, fs)
            | None => (Err FileNotFoundError, fs)
            end.

Definition ends_with_csv (name : string) : bool :=
  (4 <=? String.length name)%nat &&
  String.eqb (substring (String.length name - 4) 4 name) ".csv".

(** [latest_file(directory, f"{taxonomy}*.csv")]: the last matching name. *)
Definition latest_file (files : list (string * list ScbRow)) (t : Taxonomy)
  : Result (list ScbRow) :=
  let matching := filter (fun f => String.prefix (taxonomy_name t) (fst f)
                                   && ends_with_csv (fst f)) files in
  match rev (sort_by (fun a b => String.leb (fst a) (fst b)) matching) with
  | [] => Err FileNotFoundError
  | f :: _ => Ok (snd f)
  end.

Definition load_scb_employment (t : Taxonomy) : PM (list ScbRow) :=
  fun fs => (latest_file (fs_scb fs) t, fs).

Definition write_csv (path : string) (table : list OutRow) : PM unit :=
  fun fs => (Ok tt, {| fs_raw := fs_raw fs; fs_scb := fs_scb fs;
                       fs_out := (path, table)
                                 :: filter (fun f => negb (String.eqb (fst f) path)) (fs_out fs) |}).

Definition weighted_path (t : Taxonomy) : string :=
  "03_daioe_aggregated/daioe_" ++ taxonomy_name t ++ "_emp_weighted.csv".
Definition simple_path (t : Taxonomy) : string :=
  "03_daioe_aggregated/daioe_" ++ taxonomy_name t ++ "_simple_avg.csv".

Definition write_outputs (t : Taxonomy) (w s : list OutRow) : PM (string * string) :=
  _ <- write_csv (weighted_path t) w ;;
  _ <- write_csv (simple_path t) s ;;
  pret (weighted_path t, simple_path t).

Definition run_weighting (t : Taxonomy) : PM (string * string) :=
  raw <- load_daioe_raw t ;;
  scb <- load_scb_employment t ;;
  '(prepared, daioe_cols) <- lift (prepare_raw_dataframe raw t) ;;
  prepared <- lift (attach_employment prepared scb) ;;
  let n_children := compute_children_maps prepared in
  w <- lift (build_pipeline prepared daioe_cols t n_children weighted) ;;
  s <- lift (build_pipeline prepared daioe_cols t n_children simple) ;;
  write_outputs t w s.

(** ** Vocabulary of the properties below *)

(** Equality of cells up to the value of the rational. *)
Definition cell_eq (a b : option Q) : Prop :=
  match a, b with
  | Some x, Some y => (x == y)%Q
  | None, None => True
  | _, _ => False
  end.

Definition emp_or_zero (r : LeafRow) : Q :=
  match emp_q r with Some e => e | None => 0%Q end.

Definition value_or_zero (i : nat) (r : LeafRow) : Q :=
  match metric_at i (lr r) with Some v => v | None => 0%Q end.

(** The weighted aggregate as the specification words it: the sums of
    [value * employment] and of [employment] over the leaves whose value is
    present, a missing employment counting as 0; absent when the second sum
    is 0. *)
Definition spec_weighted_aggregate (i : nat) (grp : list LeafRow) : option Q :=
  let contrib := filter (fun r => is_some (metric_at i (lr r))) grp in
  let num := fold_right Qplus 0%Q (map (fun r => value_or_zero i r * emp_or_zero r)%Q contrib) in
  let den := fold_right Qplus 0%Q (map emp_or_zero contrib) in
  if Qeq_bool den 0 then None else Some (num / den)%Q.

(** The level-4 rows of the employment table and their zero-filled codes. *)
Definition scb_level4 (scb : list ScbRow) : list ScbRow :=
  filter (fun s => Z.eqb (s_level s) 4) scb.
Definition scb_keys (scb : list ScbRow) : list string :=
  map (fun s => zfill 4 (s_code s)) (scb_level4 scb).

(** The leaf rows of an output row's group. *)
Definition group_of (level : Z) (df : list LeafRow) (o : OutRow) : list LeafRow :=
  filter (in_group3 level (o_year o, Some (o_code o), o_label o)) df.

Definition count_lt (x : Q) (l : list Q) : nat :=
  List.length (filter (fun y => negb (Qle_bool x y)) l).
Definition count_eq (x : Q) (l : list Q) : nat :=
  List.length (filter (fun y => Qeq_bool y x) l).

(** The present values of metric [i] in the (year, level) group of [r]. *)
Definition peer_values (rows : list OutRow) (i : nat) (r : OutRow) : list Q :=
  present (metric_col i (filter (same_year_level r) rows)).

(** The key columns of an output row. *)
Definition out_key (o : OutRow) : Taxonomy * Z * string * option string * Z * option Z :=
  (o_taxonomy o, o_level o, o_code o, o_label o, o_year o, o_n_children o).

Definition rmap {A B} (f : A -> B) (r : Result A) : Result B :=
  match r with Ok a => Ok (f a) | Err e => Err e end.

Definition erase_emp (r : LeafRow) : LeafRow := {| lr := lr r; emp := None |}.

Definition output_file (path : string) (fs : FileStore) : option (list OutRow) :=
  option_map snd (find (fun f => String.eqb (fst f) path) (fs_out fs)).

(** The token and the label of a raw cell, as split by [split_code_label]. *)
Definition cell_token (t : Taxonomy) (level : Z) (rr : RawRow) : string :=
  fst (split_once (astype_str (text_cell (code_col_name t level) rr))).
Definition cell_label (t : Taxonomy) (level : Z) (rr : RawRow) : string :=
  match snd (split_once (astype_str (text_cell (code_col_name t level) rr))) with
  | Some l => l
  | None => EmptyString
  end.

Fixpoint has_space (s : string) : bool :=
  match s with
  | String c rest => Ascii.eqb c " "%char || has_space rest
  | EmptyString => false
  end.

Definition starts_with_zero (s : string) : bool :=
  match s with String c _ => Ascii.eqb c "0"%char | EmptyString => false end.

(** ** Concrete inputs *)

Definition ex_prep (c4 c3 l3 : string) (v : option Q) : PrepRow :=
  {| year := 2020; code1 := Some "1"; code2 := Some "11"; code3 := Some c3;
     code4 := Some c4; label1 := Some "Managers"; label2 := Some "Executives";
     label3 := Some l3; label4 := Some ("Occupation " ++ c4); metrics := [v] |}.

Definition ex_leaf (c4 c3 l3 : string) (v : option Q) (e : option Z) : LeafRow :=
  {| lr := ex_prep c4 c3 l3 v; emp := e |}.

(** Two leaves under code 111: [{emp=10, metric=0.8}] and [{emp=30, metric=0.4}]. *)
Definition ex_two_leaves : list LeafRow :=
  [ex_leaf "1111" "111" "Legislators" (Some (8 # 10)) (Some 10);
   ex_leaf "1112" "111" "Legislators" (Some (4 # 10)) (Some 30)].

(** Two leaves under code 111 whose level-3 labels differ. *)
Definition ex_two_labels : list LeafRow :=
  [ex_leaf "1111" "111" "Legislators" (Some (8 # 10)) (Some 10);
   ex_leaf "1112" "111" "Senior officials" (Some (4 # 10)) (Some 30)].

(** A single leaf under code 111 whose employment is missing. *)
Definition ex_single_leaf : list LeafRow :=
  [ex_leaf "1111" "111" "Legislators" (Some (8 # 10)) None].

Definition ex_out (code : string) (v : Q) : OutRow :=
  {| o_taxonomy := ssyk2012; o_level := 4; o_code := code; o_label := None;
     o_year := 2020; o_n_children := Some 1; o_metrics := [Some v]; o_pct := [] |}.

(** Three rows of one (year, level) group with values 0.1, 0.5, 0.5. *)
Definition ex_three_rows : list OutRow :=
  [ex_out "1111" (1 # 10); ex_out "1112" (5 # 10); ex_out "1113" (5 # 10)].

Definition ex_cells (c4 c3 c2 c1 : option string) : list (string * option string) :=
  [("ssyk2012_4", c4); ("ssyk2012_3", c3); ("ssyk2012_2", c2); ("ssyk2012_1", c1)].

Definition ex_raw (rows : list RawRow) : RawTable :=
  {| rt_columns := ["Unnamed: 0"; "year"; "ssyk2012_4"; "ssyk2012_3"; "ssyk2012_2";
                    "ssyk2012_1"; "daioe_allapps"];
     rt_rows := rows |}.

(** A level-4 cell whose code token has five digits. *)
Definition ex_raw_long_code : RawTable :=
  ex_raw [{| rr_year := 2020;
             rr_text := ex_cells (Some "11111 Legislators") (Some "111 Legislators")
                                 (Some "11 Executives") (Some "1 Managers");
             rr_metrics := [Some (1 # 2)] |}].

(** Two raw rows, the second one with missing code-label cells. *)
Definition ex_raw_missing_cells : RawTable :=
  ex_raw [{| rr_year := 2020;
             rr_text := ex_cells (Some "0110 Officers") (Some "011 Officers")
                                 (Some "01 Officers") (Some "0 Armed forces");
             rr_metrics := [Some (1 # 2)] |};
          {| rr_year := 2020;
             rr_text := ex_cells None None None None;
             rr_metrics := [Some (1 # 4)] |}].

Definition ex_scb : list ScbRow :=
  [{| s_level := 4; s_code := "1111"; s_value := 10 |};
   {| s_level := 4; s_code := "1112"; s_value := 30 |};
   {| s_level := 3; s_code := "111"; s_value := 40 |}].

(** ** The SCB pull: from the fetched records to the stacked table *)

(** Exceptions of [fetch_taxonomy_dataframe] while it processes the records. *)
Inductive pull_error :=
  | PullValueError     (* [code, obs_year = record["key"][:2]] with a short key,
                          or [int(...)] of a value that is not an integer *)
  | PullIndexError     (* [record["values"][0]] of an empty list *)
  | PullRuntimeError.  (* "SCB returned no data" *)

Inductive PullResult (A : Type) :=
  | POk (a : A)
  | PErr (e : pull_error).
Arguments POk {A} a.
Arguments PErr {A} e.

(** A record of [scb.get_data()["data"]]. *)
Record ScbRecord := {
  rec_key : list string;
  rec_values : list string
}.

(** A row of [records]. *)
Record ScbFlat := {
  code_4 : string;
  code_3 : string;
  code_2 : string;
  code_1 : string;
  f_year : string;
  value : Z
}.

(** A row of the stacked table [taxonomy, year, level, code, value]. *)
Record ScbOut := {
  so_taxonomy : Taxonomy;
  so_year : string;
  so_level : Z;
  so_code : string;
  so_value : Z
}.

Section ScbPull.

(** Python's [int(...)] on a value string of the API: [None] where it raises
    [ValueError]. *)
Variable py_int : string -> option Z.

(** The loop [for record in scb_fetch] building [records]. *)
Fixpoint scb_records (recs : list ScbRecord) : PullResult (list ScbFlat) :=
  match recs with
  | [] => POk []
  | r :: rs =>
      match rec_key r with
      | code :: obs_year :: _ =>
          if String.eqb code "0002" then scb_records rs  (* drop unspecified bucket *)
          else
            match rec_values r with
            | [] => PErr PullIndexError
            | v :: _ =>
                match py_int v with
                | None => PErr PullValueError
                | Some n =>
                    match scb_records rs with
                    | POk fl =>
                        POk ({| code_4 := zfill 4 code;
                                code_3 := substring 0 3 (zfill 4 code);
                                code_2 := substring 0 2 (zfill 4 code);
                                code_1 := substring 0 1 (zfill 4 code);
                                f_year := obs_year;
                                value := n |} :: fl)
                    | PErr e => PErr e
                    end
                end
            end
      | _ => PErr PullValueError
      end
  end.

End ScbPull.

(** [level_map = {4: "code_4", 3: "code_3", 2: "code_2", 1: "code_1"}] *)
Definition level_col (level : Z) (f : ScbFlat) : string :=
  match level with
  | 4 => code_4 f
  | 3 => code_3 f
  | 2 => code_2 f
  | _ => code_1 f
  end.

Definition skey_eqb (a b : string * string) : bool :=
  String.eqb (fst a) (fst b) && String.eqb (snd a) (snd b).

Definition skey_leb (a b : string * string) : bool :=
  String.ltb (fst a) (fst b) || (String.eqb (fst a) (fst b) && String.leb (snd a) (snd b)).

Definition zsum (l : list Z) : Z := fold_right Z.add 0 l.

Definition sum_values (fl : list ScbFlat) : Z := fold_right Z.add 0 (map value fl).

(** [df.groupby(["year", column], as_index=False)["value"].sum()
       .rename(columns={column: "code"})], with [level_df["level"] = level]
    and the [taxonomy] column assigned. *)
Definition level_frame (t : Taxonomy) (level : Z) (fl : list ScbFlat) : list ScbOut :=
  map (fun k => {| so_taxonomy := t; so_year := fst k; so_level := level; so_code := snd k;
                   so_value := sum_values
                                 (filter (fun f => skey_eqb (f_year f, level_col level f) k) fl) |})
      (sort_by skey_leb (dedup skey_eqb (map (fun f => (f_year f, level_col level f)) fl))).

(** [sort_values(["year", "level", "code"])]; the keys are distinct, so the
    order is determined. *)
Definition scb_out_leb (a b : ScbOut) : bool :=
  String.ltb (so_year a) (so_year b) ||
  (String.eqb (so_year a) (so_year b) &&
   (Z.ltb (so_level a) (so_level b) ||
    (Z.eqb (so_level a) (so_level b) && String.leb (so_code a) (so_code b)))).

Definition scb_out_key (o : ScbOut) : string * Z * string := (so_year o, so_level o, so_code o).

(** Lines 58-94 of [fetch_taxonomy_dataframe]: the records fetched for a
    taxonomy, turned into the stacked table. *)
Definition stack_records (py_int : string -> option Z) (t : Taxonomy)
  (recs : list ScbRecord) : PullResult (list ScbOut) :=
  match scb_records py_int recs with
  | PErr e => PErr e
  | POk [] => PErr PullRuntimeError
  | POk fl =>
      POk (sort_by scb_out_leb
             (level_frame t 4 fl ++ level_frame t 3 fl ++
              level_frame t 2 fl ++ level_frame t 1 fl)%list)
  end.

(** A decimal reading of digit strings, standing for [int(...)] on the
    examples below. *)
Fixpoint ex_digits (s : string) (acc : Z) : option Z :=
  match s with
  | EmptyString => Some acc
  | String c r =>
      let n := Z.of_nat (nat_of_ascii c) - 48 in
      if Z.leb 0 n && Z.leb n 9 then ex_digits r (10 * acc + n) else None
  end.

Definition ex_py_int (s : string) : option Z :=
  match s with EmptyString => None | _ => ex_digits s 0 end.

Definition ex_record (code year v : string) : ScbRecord :=
  {| rec_key := [code; year]; rec_values := [v] |}.

Definition ex_records : list ScbRecord :=
  [ex_record "0110" "2023" "5"; ex_record "0111" "2023" "7";
   ex_record "0002" "2023" "100"; ex_record "1111" "2023" "3";
   ex_record "0110" "2022" "4"].

(** ** Generic lemmas *)

Lemma insert_by_perm {A} (leb : A -> A -> bool) x l :
  Permutation (insert_by leb x l) (x :: l).
Proof.
  induction l as [|y l IH]; simpl; [reflexivity|].
  destruct (leb x y); [reflexivity|].
  rewrite IH. apply perm_swap.
Qed.

Lemma sort_by_perm {A} (leb : A -> A -> bool) l : Permutation (sort_by leb l) l.
Proof.
  induction l as [|x l IH]; simpl; [reflexivity|].
  rewrite insert_by_perm. now apply perm_skip.
Qed.

Lemma dedup_from_spec {A} (eqb : A -> A -> bool)
  (Heqb : forall x y, eqb x y = true <-> x = y) seen l :
  NoDup (dedup_from eqb seen l) /\
  (forall x, In x (dedup_from eqb seen l) <-> In x l /\ ~ In x seen).
Proof.
  revert seen; induction l as [|a l IH]; intros seen; simpl.
  - split; [constructor|]. intuition.
  - destruct (existsb (eqb a) seen) eqn:Ha.
    + apply existsb_exists in Ha as [b [Hb Hab]]. apply Heqb in Hab; subst b.
      destruct (IH seen) as [Hnd Hin]. split; [exact Hnd|].
      intros x; rewrite Hin; split; [tauto|].
      intros [[->|Hx] Hs]; [contradiction|tauto].
    + assert (Hna : ~ In a seen).
      { intros Hs. assert (existsb (eqb a) seen = true) by
          (apply existsb_exists; exists a; split; [exact Hs|apply Heqb; reflexivity]).
        congruence. }
      destruct (IH (a :: seen)) as [Hnd Hin]. split.
      * constructor; [|exact Hnd]. rewrite Hin. simpl; tauto.
      * intros x; simpl; rewrite Hin; simpl.
        split.
        -- intros [<-|[Hx Hs]]; [tauto|]. tauto.
        -- intros [[<-|Hx] Hs]; [left; reflexivity|].
           destruct (eqb a x) eqn:E; [left; apply Heqb; exact E|].
           right. split; [exact Hx|]. intros [Hax|Hs']; [|contradiction].
           apply Heqb in Hax. congruence.
Qed.

Lemma opt_str_eqb_spec a b : opt_str_eqb a b = true <-> a = b.
Proof.
  destruct a as [x|], b as [y|]; simpl; try (split; congruence).
  rewrite String.eqb_eq. split; congruence.
Qed.

Lemma key2_eqb_spec a b : key2_eqb a b = true <-> a = b.
Proof.
  destruct a as [y1 c1], b as [y2 c2]; unfold key2_eqb; simpl.
  rewrite andb_true_iff, Z.eqb_eq, opt_str_eqb_spec. split; [intros [-> ->]; reflexivity|].
  intros H; inversion H; auto.
Qed.

Lemma key3_eqb_spec a b : key3_eqb a b = true <-> a = b.
Proof.
  destruct a as [[y1 c1] l1], b as [[y2 c2] l2]; unfold key3_eqb.
  rewrite !andb_true_iff, Z.eqb_eq, !opt_str_eqb_spec.
  split; [intros [[-> ->] ->]; reflexivity|]. intros H; inversion H; auto.
Qed.

Lemma has_dup_false l : has_dup l = false <-> NoDup l.
Proof.
  induction l as [|x l IH]; simpl.
  - split; [constructor|reflexivity].
  - rewrite orb_false_iff, IH. split.
    + intros [Hx Hnd]. constructor; [|exact Hnd]. intros Hin.
      assert (existsb (String.eqb x) l = true) by
        (apply existsb_exists; exists x; split; [exact Hin|apply String.eqb_refl]).
      congruence.
    + intros Hnd; inversion Hnd as [|? ? Hx Hnd']; subst. split; [|exact Hnd'].
      destruct (existsb (String.eqb x) l) eqn:E; [|reflexivity].
      apply existsb_exists in E as [y [Hy Hxy]]. apply String.eqb_eq in Hxy; subst. contradiction.
Qed.

Section LeftMerge.
Context {A K B : Type} (keqb : K -> K -> bool).
Hypothesis keqb_spec : forall x y, keqb x y = true <-> x = y.

Lemma filter_key_none (right : list (K * B)) k :
  (forall kb, In kb right -> fst kb <> k) ->
  filter (fun kb => keqb k (fst kb)) right = [].
Proof.
  induction right as [|kb right IH]; intros H; simpl; [reflexivity|].
  destruct (keqb k (fst kb)) eqn:E.
  - apply keqb_spec in E. exfalso. apply (H kb); [left; reflexivity|]. congruence.
  - apply IH. intros kb' Hin. apply H. right; exact Hin.
Qed.

Lemma filter_key_unique (right : list (K * B)) kb :
  NoDup (map fst right) -> In kb right ->
  filter (fun kb' => keqb (fst kb) (fst kb')) right = [kb].
Proof.
  induction right as [|kb0 right IH]; intros Hnd Hin; [destruct Hin|].
  simpl in Hnd. inversion Hnd as [|? ? Hnotin Hnd']; subst. simpl.
  destruct Hin as [->|Hin].
  - assert (E : keqb (fst kb) (fst kb) = true) by (apply keqb_spec; reflexivity).
    rewrite E. f_equal. apply filter_key_none. intros kb' Hin' Heq.
    apply Hnotin. rewrite <- Heq. apply in_map. exact Hin'.
  - destruct (keqb (fst kb) (fst kb0)) eqn:E.
    + apply keqb_spec in E. exfalso. apply Hnotin. rewrite <- E. apply in_map. exact Hin.
    + apply IH; assumption.
Qed.

Lemma filter_key_at_most_one (right : list (K * B)) k :
  NoDup (map fst right) ->
  filter (fun kb => keqb k (fst kb)) right = [] \/
  exists kb, In kb right /\ fst kb = k /\ filter (fun kb' => keqb k (fst kb')) right = [kb].
Proof.
  intros Hnd.
  destruct (filter (fun kb => keqb k (fst kb)) right) as [|kb rest] eqn:E; [left; reflexivity|].
  right. assert (Hkb : In kb (filter (fun kb => keqb k (fst kb)) right)) by (rewrite E; left; reflexivity).
  apply filter_In in Hkb as [Hin Hk]. apply keqb_spec in Hk.
  exists kb. split; [exact Hin|]. split; [symmetry; exact Hk|].
  pose proof (filter_key_unique right kb Hnd Hin) as U. rewrite <- Hk in U.
  rewrite U in E. symmetry; exact E.
Qed.

Lemma left_merge_cons (lkey : A -> K) (right : list (K * B)) a l :
  left_merge keqb lkey right (a :: l) =
  ((match filter (fun kb => keqb (lkey a) (fst kb)) right with
    | [] => [(a, None)]
    | ms => map (fun kb => (a, Some (snd kb))) ms
    end) ++ left_merge keqb lkey right l)%list.
Proof. reflexivity. Qed.

Lemma left_merge_one_each (lkey : A -> K) (right : list (K * B)) l :
  NoDup (map fst right) ->
  left_merge keqb lkey right l =
  map (fun a => (a, match filter (fun kb => keqb (lkey a) (fst kb)) right with
                    | [] => None
                    | kb :: _ => Some (snd kb)
                    end)) l.
Proof.
  intros Hnd. induction l as [|a l IH]; [reflexivity|].
  rewrite left_merge_cons, IH. simpl.
  destruct (filter_key_at_most_one right (lkey a) Hnd) as [E|[kb [_ [_ E]]]];
    rewrite E; reflexivity.
Qed.

Lemma In_left_merge (lkey : A -> K) (right : list (K * B)) l p :
  In p (left_merge keqb lkey right l) -> In (fst p) l.
Proof.
  unfold left_merge. intros H. apply in_flat_map in H as [a [Ha Hp]].
  destruct (filter (fun kb => keqb (lkey a) (fst kb)) right).
  - destruct Hp as [<-|[]]; exact Ha.
  - apply in_map_iff in Hp as [kb' [<- _]]; exact Ha.
Qed.
End LeftMerge.

Lemma left_merge_map {A A' K B} (keqb : K -> K -> bool) (f : A -> A') (lkey : A' -> K)
  (right : list (K * B)) l :
  map (fun p => (f (fst p), snd p)) (left_merge keqb (fun a => lkey (f a)) right l) =
  left_merge keqb lkey right (map f l).
Proof.
  induction l as [|a l IH]; [reflexivity|].
  simpl map at 2. rewrite !left_merge_cons, map_app, IH. f_equal.
  destruct (filter (fun kb => keqb (lkey (f a)) (fst kb)) right); [reflexivity|].
  simpl. rewrite map_map. reflexivity.
Qed.

Lemma insert_by_map_eq {A B} (leb : A -> A -> bool) (f : A -> B)
  (Hleb : forall a b a' b', f a = f a' -> f b = f b' -> leb a b = leb a' b')
  x y l1 l2 :
  f x = f y -> map f l1 = map f l2 ->
  map f (insert_by leb x l1) = map f (insert_by leb y l2).
Proof.
  revert l2; induction l1 as [|a l1 IH]; intros [|b l2] Hxy Hl; simpl in *;
    try discriminate; [rewrite Hxy; reflexivity|].
  injection Hl as Hab Hl.
  rewrite (Hleb x a y b Hxy Hab).
  destruct (leb y b); simpl; rewrite ?Hxy, ?Hab, ?Hl; [reflexivity|].
  f_equal. apply IH; assumption.
Qed.

Lemma sort_by_map_eq {A B} (leb : A -> A -> bool) (f : A -> B)
  (Hleb : forall a b a' b', f a = f a' -> f b = f b' -> leb a b = leb a' b')
  l1 l2 : map f l1 = map f l2 -> map f (sort_by leb l1) = map f (sort_by leb l2).
Proof.
  revert l2; induction l1 as [|a l1 IH]; intros [|b l2] Hl; simpl in *;
    try discriminate; [reflexivity|].
  injection Hl as Hab Hl. apply insert_by_map_eq; auto.
Qed.

(** ** The structure of the aggregated levels *)

Lemma group_keys3_spec level df :
  NoDup (group_keys3 level df) /\
  (forall k, In k (group_keys3 level df) <->
             In k (map (key3_of level) df) /\ is_some (snd (fst k)) = true /\ is_some (snd k) = true).
Proof.
  unfold group_keys3.
  destruct (dedup_from_spec key3_eqb key3_eqb_spec []
              (filter (fun k => is_some (snd (fst k)) && is_some (snd k))
                 (map (key3_of level) df))) as [Hnd Hin].
  split.
  - eapply Permutation_NoDup; [symmetry; apply sort_by_perm|exact Hnd].
  - intros k. split.
    + intros H. apply (Permutation_in _ (sort_by_perm _ _)) in H.
      apply Hin in H as [H _]. apply filter_In in H as [H Hs].
      apply andb_true_iff in Hs. tauto.
    + intros [H [H1 H2]]. apply (Permutation_in _ (Permutation_sym (sort_by_perm _ _))).
      apply Hin. split; [|intros []]. apply filter_In. rewrite H1, H2. auto.
Qed.

Lemma group_keys2_nodup level df : NoDup (group_keys2 level df).
Proof.
  unfold group_keys2.
  eapply Permutation_NoDup; [symmetry; apply sort_by_perm|].
  apply (dedup_from_spec key2_eqb key2_eqb_spec []).
Qed.

Lemma children_keys_nodup df level : NoDup (map fst (compute_children_maps df level)).
Proof.
  unfold compute_children_maps. destruct (Z.eqb level 4); rewrite map_map, map_id;
    apply group_keys2_nodup.
Qed.

Lemma aggregate_level_rows df cols nch t level m rows :
  (level = 1 \/ level = 2 \/ level = 3) ->
  aggregate_level df cols nch t level m = Ok rows ->
  forall o, In o rows ->
    In (o_year o, Some (o_code o), o_label o) (group_keys3 level df) /\
    o_level o = level /\ o_taxonomy o = t /\
    o_metrics o = map (fun i => (match m with weighted => weighted_metric
                                            | simple => simple_metric end)
                                  i (group_of level df o))
                      (seq 0 (List.length cols)).
Proof.
  intros Hlev Hagg o Ho. unfold aggregate_level in Hagg.
  assert (Hc : negb (Z.eqb level 1 || Z.eqb level 2 || Z.eqb level 3) = false)
    by (destruct Hlev as [->|[->| ->]]; reflexivity).
  rewrite Hc in Hagg. injection Hagg as <-.
  apply in_map_iff in Ho as [[[[[y c] l] ms] nc] [<- Hp]].
  apply In_left_merge in Hp. simpl in Hp.
  apply in_map_iff in Hp as [k [Hk Hkin]]. injection Hk as Hk1 Hk2. subst.
  pose proof Hkin as Hk'. apply group_keys3_spec in Hk' as [_ [Hc' _]].
  destruct c as [c|]; [|discriminate]. simpl.
  split; [exact Hkin|]. split; [reflexivity|]. split; [reflexivity|]. reflexivity.
Qed.

(** ** The weighted branch computes the specified quotient *)

Lemma weighted_sums i grp :
  (pd_sum (map (fun r => where0 (is_some (metric_at i (lr r))) (emp_q r)) grp)
   == fold_right Qplus 0 (map emp_or_zero (filter (fun r => is_some (metric_at i (lr r))) grp)))%Q /\
  (pd_sum (map (fun r => cell_mul (where0 (is_some (metric_at i (lr r))) (metric_at i (lr r)))
                                  (where0 (is_some (metric_at i (lr r))) (emp_q r))) grp)
   == fold_right Qplus 0 (map (fun r => value_or_zero i r * emp_or_zero r)
                            (filter (fun r => is_some (metric_at i (lr r))) grp)))%Q.
Proof.
  induction grp as [|r grp [IH1 IH2]]; simpl; [split; reflexivity|].
  destruct (metric_at i (lr r)) as [v|] eqn:Em; simpl.
  - assert (Hv : value_or_zero i r = v) by (unfold value_or_zero; rewrite Em; reflexivity).
    destruct (emp_q r) as [e|] eqn:Ee; simpl.
    + assert (He : emp_or_zero r = e) by (unfold emp_or_zero; rewrite Ee; reflexivity).
      rewrite Hv, He. split; [rewrite IH1 | rewrite IH2]; reflexivity.
    + assert (He : emp_or_zero r = 0%Q) by (unfold emp_or_zero; rewrite Ee; reflexivity).
      rewrite Hv, He. split; [rewrite IH1 | rewrite IH2]; ring.
  - split; [rewrite IH1 | rewrite IH2]; ring.
Qed.

Lemma cell_div_replace_zero w wx den num :
  (w == den)%Q -> (wx == num)%Q ->
  cell_eq (cell_div wx (replace_zero w)) (if Qeq_bool den 0 then None else Some (num / den)%Q).
Proof.
  intros Hw Hwx. unfold replace_zero.
  assert (Hb : Qeq_bool w 0 = Qeq_bool den 0).
  { destruct (Qeq_bool den 0) eqn:E; [apply Qeq_bool_iff in E|apply Qeq_bool_neq in E];
      [apply Qeq_bool_iff; rewrite Hw; exact E|].
    destruct (Qeq_bool w 0) eqn:E'; [|reflexivity].
    apply Qeq_bool_iff in E'. exfalso; apply E. rewrite <- Hw. exact E'. }
  rewrite Hb. destruct (Qeq_bool den 0); simpl; [exact I|].
  rewrite Hw, Hwx. reflexivity.
Qed.

Lemma weighted_metric_spec i grp :
  cell_eq (weighted_metric i grp) (spec_weighted_aggregate i grp).
Proof.
  destruct (weighted_sums i grp) as [Hw Hwx].
  exact (cell_div_replace_zero _ _ _ _ Hw Hwx).
Qed.

(** ** Aggregation engine *)

(** C1 (amended).  At levels 1, 2 and 3, the weighted aggregate of every
    metric of every output row is the quotient of the sum of
    [value * employment] by the sum of [employment] over the leaf rows of the
    row's (year, code, label) group whose value is present, a missing
    employment counting as 0, and is absent when that denominator is 0.  On
    the two leaves [{emp=10, metric=0.8}] and [{emp=30, metric=0.4}] under
    code 111 it is 0.5. *)
Theorem aggregate_weighted_is_weighted_mean :
  (forall df cols nch t level rows,
     (level = 1 \/ level = 2 \/ level = 3) ->
     aggregate_level df cols nch t level weighted = Ok rows ->
     Forall (fun o => Forall2 cell_eq (o_metrics o)
               (map (fun i => spec_weighted_aggregate i (group_of level df o))
                    (seq 0 (List.length cols)))) rows) /\
  (exists rows q,
     aggregate_level ex_two_leaves ["daioe_allapps"] (compute_children_maps ex_two_leaves)
       ssyk2012 3 weighted = Ok rows /\
     map o_metrics rows = [[Some q]] /\ (q == 1 # 2)%Q).
Proof.
  split.
  - intros df cols nch t level rows Hlev Hagg. apply Forall_forall. intros o Ho.
    destruct (aggregate_level_rows df cols nch t level weighted rows Hlev Hagg o Ho)
      as [_ [_ [_ ->]]].
    induction (seq 0 (List.length cols)) as [|i is IH]; simpl; constructor;
      [apply weighted_metric_spec | exact IH].
  - eexists _, _. split; [reflexivity|]. split; [reflexivity|]. reflexivity.
Qed.

Lemma aggregate_weighted_is_weighted_mean_witness :
  exists rows,
    (3 = 1 \/ 3 = 2 \/ 3 = 3) /\
    aggregate_level ex_two_leaves ["daioe_allapps"] (compute_children_maps ex_two_leaves)
      ssyk2012 3 weighted = Ok rows /\
    Forall (fun o => Forall2 cell_eq (o_metrics o)
              (map (fun i => spec_weighted_aggregate i (group_of 3 ex_two_leaves o))
                   (seq 0 1))) rows.
Proof.
  eexists. split; [right; right; reflexivity|]. split; [reflexivity|].
  apply (proj1 aggregate_weighted_is_weighted_mean ex_two_leaves ["daioe_allapps"]
           (compute_children_maps ex_two_leaves) ssyk2012 3).
  - right; right; reflexivity.
  - reflexivity.
Defined.

(** C1 (counterexample).  On the two leaves [{emp=10, metric=0.8}] and
    [{emp=30, metric=0.4}] under code 111 the weighted aggregate is not 0.35. *)
Lemma weighted_two_leaves_not_035 :
  exists rows q,
    aggregate_level ex_two_leaves ["daioe_allapps"] (compute_children_maps ex_two_leaves)
      ssyk2012 3 weighted = Ok rows /\
    map o_metrics rows = [[Some q]] /\ ~ (q == 35 # 100)%Q.
Proof.
  eexists _, _. split; [reflexivity|]. split; [reflexivity|].
  unfold Qeq; simpl; discriminate.
Qed.

(** ** Percentile ranks *)

Section Ranks.
Local Open Scope Q_scope.

Lemma filter_length_perm {A} (f : A -> bool) l1 l2 :
  Permutation l1 l2 -> List.length (filter f l1) = List.length (filter f l2).
Proof.
  induction 1; simpl; try lia.
  - destruct (f x); simpl; lia.
  - destruct (f x), (f y); simpl; lia.
Qed.

Lemma insert_by_sorted x l :
  Sorted Qle l -> Sorted Qle (insert_by Qle_bool x l).
Proof.
  induction l as [|a l IH]; intros H; simpl.
  - repeat constructor.
  - destruct (Qle_bool x a) eqn:E.
    + constructor; [exact H|]. constructor. apply Qle_bool_iff. exact E.
    + assert (Hax : a <= x) by (apply Qlt_le_weak, Qnot_le_lt; intros C;
                                 apply Qle_bool_iff in C; congruence).
      inversion H as [|? ? Hl Hhd]; subst. constructor; [apply IH; exact Hl|].
      destruct l as [|b l]; simpl; [constructor; exact Hax|].
      destruct (Qle_bool x b); constructor; [exact Hax|].
      inversion Hhd; assumption.
Qed.

Lemma sort_by_sorted l : Sorted Qle (sort_by Qle_bool l).
Proof.
  induction l as [|x l IH]; simpl; [constructor|]. apply insert_by_sorted, IH.
Qed.

Lemma count_lt_none x l : Forall (Qle x) l -> count_lt x l = 0%nat.
Proof.
  induction 1 as [|y l Hy _ IH]; [reflexivity|]. unfold count_lt in *; simpl.
  apply Qle_bool_iff in Hy. rewrite Hy. exact IH.
Qed.

Lemma count_eq_none x l : Forall (Qlt x) l -> count_eq x l = 0%nat.
Proof.
  induction 1 as [|y l Hy _ IH]; [reflexivity|]. unfold count_eq in *; simpl.
  destruct (Qeq_bool y x) eqn:E; [|exact IH].
  apply Qeq_bool_iff in E. rewrite E in Hy. destruct (Qlt_irrefl x Hy).
Qed.

(** In a sorted list the ties of [x] occupy the positions right after the
    values smaller than [x]. *)
Lemma tie_positions_sorted x s k :
  StronglySorted Qle s ->
  List.length (tie_positions x s k) = count_eq x s /\
  (2 * list_sum (tie_positions x s k) + count_eq x s =
   count_eq x s * (2 * k + 2 * count_lt x s + count_eq x s))%nat.
Proof.
  revert k; induction s as [|y s IH]; intros k Hs; [unfold count_eq, count_lt; simpl; split; reflexivity|].
  inversion Hs as [|? ? Hs' Hall]; subst.
  unfold count_eq, count_lt in *; simpl.
  destruct (Qeq_bool y x) eqn:Eyx.
  - apply Qeq_bool_iff in Eyx.
    assert (Hxy : Qle_bool x y = true) by (apply Qle_bool_iff; rewrite Eyx; apply Qle_refl).
    rewrite Hxy. simpl.
    assert (HL : count_lt x s = 0%nat).
    { apply count_lt_none. eapply Forall_impl; [|exact Hall].
      intros z Hz. rewrite <- Eyx. exact Hz. }
    unfold count_lt in HL. rewrite HL.
    destruct (IH (S k) Hs') as [Hlen Hsum]. rewrite HL in Hsum.
    split; [simpl; lia|]. simpl. nia.
  - destruct (Qle_bool x y) eqn:Exy; simpl.
    + (* x < y: no tie of x after y *)
      assert (Hlt : x < y).
      { apply Qle_bool_iff in Exy. apply Qle_lteq in Exy as [H|H]; [exact H|].
        exfalso. assert (Qeq_bool y x = true) by (apply Qeq_bool_iff; symmetry; exact H).
        congruence. }
      assert (HC : count_eq x s = 0%nat).
      { apply count_eq_none. eapply Forall_impl; [|exact Hall].
        intros z Hz. eapply Qlt_le_trans; eassumption. }
      unfold count_eq in HC. rewrite HC.
      destruct (IH (S k) Hs') as [Hlen Hsum]. rewrite HC in Hlen, Hsum.
      split; [exact Hlen|]. lia.
    + destruct (IH (S k) Hs') as [Hlen Hsum].
      split; [exact Hlen|]. nia.
Qed.

Lemma In_count_eq x l : In x l -> (1 <= count_eq x l)%nat.
Proof.
  induction l as [|y l IH]; intros H; [destruct H|]. unfold count_eq in *; simpl.
  destruct H as [->|H].
  - assert (E : Qeq_bool x x = true) by (apply Qeq_bool_iff; reflexivity).
    rewrite E; simpl; lia.
  - destruct (Qeq_bool y x); simpl; [lia|]. apply IH, H.
Qed.

Lemma Q_of_nat_plus a b : Q_of_nat (a + b) == Q_of_nat a + Q_of_nat b.
Proof. unfold Q_of_nat. rewrite Nat2Z.inj_add, inject_Z_plus. reflexivity. Qed.

Lemma Q_of_nat_mult a b : Q_of_nat (a * b) == Q_of_nat a * Q_of_nat b.
Proof. unfold Q_of_nat. rewrite Nat2Z.inj_mul, inject_Z_mult. reflexivity. Qed.

(** pandas' average rank, as a closed formula. *)
Lemma rank_pct_formula vals x :
  In x vals ->
  rank_pct vals x ==
  (Q_of_nat (count_lt x vals) + (Q_of_nat (count_eq x vals) + 1) / 2)
  / Q_of_nat (List.length vals).
Proof.
  intros Hin. unfold rank_pct.
  pose proof (sort_by_perm Qle_bool vals) as Hp.
  assert (Hss : StronglySorted Qle (sort_by Qle_bool vals)).
  { apply Sorted_StronglySorted; [intros a b c; apply Qle_trans|apply sort_by_sorted]. }
  destruct (tie_positions_sorted x _ 1 Hss) as [Hlen Hsum].
  unfold count_lt, count_eq in Hlen, Hsum.
  rewrite (filter_length_perm (fun y => Qeq_bool y x) _ _ Hp) in Hlen, Hsum.
  rewrite (filter_length_perm (fun y => negb (Qle_bool x y)) _ _ Hp) in Hsum.
  fold (count_lt x vals) (count_eq x vals) in Hlen, Hsum.
  rewrite Hlen.
  pose proof (In_count_eq x vals Hin) as HC.
  set (S := list_sum _) in *. set (C := count_eq x vals) in *. set (L := count_lt x vals) in *.
  assert (HQ : 2 * Q_of_nat S + Q_of_nat C == Q_of_nat C * (2 + 2 * Q_of_nat L + Q_of_nat C)).
  { assert (H2 : Q_of_nat (2 * S + C) == Q_of_nat (C * (2 * 1 + 2 * L + C))) by (rewrite Hsum; reflexivity).
    rewrite Q_of_nat_plus, !Q_of_nat_mult, !Q_of_nat_plus, !Q_of_nat_mult in H2.
    exact H2. }
  assert (HC0 : ~ Q_of_nat C == 0).
  { unfold Q_of_nat, Qeq; simpl. lia. }
  assert (HS : Q_of_nat S == Q_of_nat C * (2 * Q_of_nat L + Q_of_nat C + 1) / 2).
  { assert (Q_of_nat S == (2 * Q_of_nat S + Q_of_nat C - Q_of_nat C) / 2) as -> by field.
    rewrite HQ. field. }
  rewrite HS. field. split; [|exact HC0].
  unfold Q_of_nat, Qeq; simpl. intros H. rewrite Z.mul_1_r in H.
  pose proof (Permutation_length Hp). destruct vals; [destruct Hin|simpl in H; lia].
Qed.

End Ranks.

Lemma nth_map_seq {A} (f : nat -> A) n i d :
  (i < n)%nat -> nth i (map f (seq 0 n)) d = f i.
Proof.
  intros Hi. rewrite nth_indep with (d' := f 0%nat) by (rewrite length_map, length_seq; exact Hi).
  rewrite map_nth, seq_nth by exact Hi. reflexivity.
Qed.

Lemma In_present_metric rows i r v :
  In r rows -> nth i (o_metrics r) None = Some v -> In v (present (metric_col i rows)).
Proof.
  intros Hin Hv. unfold present, metric_col. apply in_flat_map.
  exists (Some v). split; [|left; reflexivity].
  rewrite <- Hv. apply (in_map (fun r' => nth i (o_metrics r') None)). exact Hin.
Qed.

(** C2 (amended).  In every (year, level) group, the percentile rank of a row
    whose metric value [v] is present is (number of values below [v] +
    (number of values equal to [v] + 1) / 2) / (number of present values):
    ties share the average of their positions (pandas' [rank(pct=True)]);
    a row whose value is absent gets an absent rank.  The values
    {0.1, 0.5, 0.5} get the ranks {1/3, 5/6, 5/6}. *)
Theorem percentile_rank_average_ties :
  (forall rows cols r i,
     In r (add_percentiles rows cols) -> (i < List.length cols)%nat ->
     match nth i (o_metrics r) None with
     | None => nth i (o_pct r) None = None
     | Some v =>
         exists q, nth i (o_pct r) None = Some q /\
           (q == (Q_of_nat (count_lt v (peer_values rows i r))
                  + (Q_of_nat (count_eq v (peer_values rows i r)) + 1) / 2)
                 / Q_of_nat (List.length (peer_values rows i r)))%Q
     end) /\
  Forall2 (fun r q => cell_eq (nth 0 (o_pct r) None) (Some q))
          (add_percentiles ex_three_rows ["daioe_allapps"]) [1 # 3; 5 # 6; 5 # 6]%Q.
Proof.
  split.
  - intros rows cols r i Hr Hi. unfold add_percentiles in Hr.
    apply in_map_iff in Hr as [r0 [<- Hr0]]. simpl.
    rewrite nth_map_seq by exact Hi. unfold pct_rank.
    destruct (nth i (o_metrics r0) None) as [v|] eqn:Ev; [|reflexivity].
    eexists. split; [reflexivity|].
    apply rank_pct_formula.
    apply (In_present_metric _ _ r0); [|exact Ev].
    apply filter_In. split; [exact Hr0|]. unfold same_year_level.
    rewrite !Z.eqb_refl. reflexivity.
  - vm_compute. repeat constructor.
Qed.

Lemma percentile_rank_average_ties_witness :
  let r := nth 1 (add_percentiles ex_three_rows ["daioe_allapps"]) (ex_out "" 0%Q) in
  In r (add_percentiles ex_three_rows ["daioe_allapps"]) /\ (0 < 1)%nat /\
  match nth 0 (o_metrics r) None with
  | None => nth 0 (o_pct r) None = None
  | Some v =>
      exists q, nth 0 (o_pct r) None = Some q /\
        (q == (Q_of_nat (count_lt v (peer_values ex_three_rows 0 r))
               + (Q_of_nat (count_eq v (peer_values ex_three_rows 0 r)) + 1) / 2)
              / Q_of_nat (List.length (peer_values ex_three_rows 0 r)))%Q
  end.
Proof.
  intros r. split; [apply nth_In; vm_compute; lia|]. split; [lia|].
  apply (proj1 percentile_rank_average_ties ex_three_rows ["daioe_allapps"] r 0%nat).
  - apply nth_In; vm_compute; lia.
  - simpl; lia.
Defined.

(** C2 (counterexample).  Of the values {0.1, 0.5, 0.5} in one (year, level)
    group, the two tied values 0.5 do not get the rank 1. *)
Lemma percentile_ties_not_one :
  exists q1 q2 q3,
    map (fun r => nth 0 (o_pct r) None) (add_percentiles ex_three_rows ["daioe_allapps"])
      = [Some q1; Some q2; Some q3] /\
    ~ (q2 == 1)%Q /\ ~ (q3 == 1)%Q.
Proof.
  exists (1 # 3)%Q, (5 # 6)%Q, (5 # 6)%Q.
  split; [vm_compute; reflexivity|].
  split; unfold Qeq; simpl; discriminate.
Qed.

(** ** Employment attacher *)

Lemma NoDup_map_Some (l : list string) : NoDup l -> NoDup (map Some l).
Proof.
  induction 1 as [|x l Hx _ IH]; simpl; constructor; [|exact IH].
  intros Hin. apply in_map_iff in Hin as [y [E Hy]]. injection E as ->. contradiction.
Qed.

(** C3.  Attaching employment fails exactly when the employment table has no
    level-4 row or its level-4 rows repeat a (zero-filled) leaf code;
    otherwise every leaf row is kept once, in order, and receives the count
    of the level-4 row with its code, or a missing employment when no
    level-4 row has its code. *)
Theorem attach_employment_errors_and_join df scb :
  ((exists e, attach_employment df scb = Err e) <->
   (scb_level4 scb = [] \/ ~ NoDup (scb_keys scb))) /\
  (forall out, attach_employment df scb = Ok out ->
     Forall2 (fun r o =>
        lr o = r /\
        (forall s, In s (scb_level4 scb) -> code4 r = Some (zfill 4 (s_code s)) ->
                   emp o = Some (s_value s)) /\
        ((forall s, In s (scb_level4 scb) -> code4 r <> Some (zfill 4 (s_code s))) ->
         emp o = None)) df out).
Proof.
  unfold attach_employment, scb_keys. fold (scb_level4 scb).
  destruct (scb_level4 scb) as [|s0 rest] eqn:Hl4.
  - split; [split; [intros _; left; reflexivity|intros _; eexists; reflexivity]|].
    intros out H; discriminate.
  - rewrite map_map. simpl fst.
    set (keys := map (fun s => zfill 4 (s_code s)) (s0 :: rest)).
    destruct (has_dup keys) eqn:Hd.
    + split; [split; [intros _; right|intros _; eexists; reflexivity]|].
      * intros Hnd. apply has_dup_false in Hnd. congruence.
      * intros out H; discriminate.
    + apply has_dup_false in Hd as Hnd. split.
      { split; [intros [e He]; discriminate|].
        intros [H|H]; [discriminate|contradiction]. }
      intros out Hout. injection Hout as <-.
      set (right := map (fun kv => (Some (fst kv), snd kv))
                        (map (fun s => (zfill 4 (s_code s), s_value s)) (s0 :: rest))).
      assert (Hr : NoDup (map fst right)).
      { unfold right. rewrite !map_map.
        replace (map _ (s0 :: rest)) with (map Some keys)
          by (unfold keys; rewrite map_map; reflexivity).
        apply NoDup_map_Some. exact Hnd. }
      change (left_merge opt_str_eqb code4 ?x df) with (left_merge opt_str_eqb code4 right df).
      assert (Hin_right : forall s, In s (s0 :: rest) ->
                                    In (Some (zfill 4 (s_code s)), s_value s) right).
      { intros s Hs. unfold right. rewrite map_map.
        apply (in_map (fun s => (Some (zfill 4 (s_code s)), s_value s))). exact Hs. }
      assert (Hright_in : forall kb, In kb right ->
                 exists s, In s (s0 :: rest) /\ kb = (Some (zfill 4 (s_code s)), s_value s)).
      { intros kb Hkb. unfold right in Hkb. rewrite map_map in Hkb.
        apply in_map_iff in Hkb as [s [<- Hs]]. exists s. split; [exact Hs|reflexivity]. }
      clearbody right.
      rewrite (left_merge_one_each opt_str_eqb opt_str_eqb_spec code4 right df Hr).
      rewrite map_map. induction df as [|r df IH]; simpl; constructor; [|exact IH].
      split; [reflexivity|]. split.
      * intros s Hs Hc.
        pose proof (filter_key_unique opt_str_eqb opt_str_eqb_spec right _ Hr (Hin_right s Hs)) as U.
        cbn [fst] in U. rewrite Hc, U. reflexivity.
      * intros Hnone. rewrite (filter_key_none opt_str_eqb opt_str_eqb_spec right (code4 r)).
        { reflexivity. }
        intros kb Hkb Heq. apply Hright_in in Hkb as [s [Hs ->]].
        exact (Hnone s Hs (eq_sym Heq)).
Qed.

Lemma attach_employment_errors_and_join_witness :
  exists out,
    attach_employment [ex_prep "1111" "111" "Legislators" None;
                       ex_prep "1113" "111" "Legislators" None] ex_scb = Ok out /\
    Forall2 (fun r o =>
        lr o = r /\
        (forall s, In s (scb_level4 ex_scb) -> code4 r = Some (zfill 4 (s_code s)) ->
                   emp o = Some (s_value s)) /\
        ((forall s, In s (scb_level4 ex_scb) -> code4 r <> Some (zfill 4 (s_code s))) ->
         emp o = None))
      [ex_prep "1111" "111" "Legislators" None; ex_prep "1113" "111" "Legislators" None] out.
Proof.
  eexists. split; [reflexivity|].
  apply (proj2 (attach_employment_errors_and_join _ ex_scb)). reflexivity.
Defined.

(** ** Code normalizer *)

Lemma split_code_label_ok col cs ls :
  split_code_label col = Ok (cs, ls) ->
  cs = map (fun c => Some (fst (split_once (astype_str c)))) col /\
  ls = map (fun c => Some (match snd (split_once (astype_str c)) with
                           | Some l => l | None => EmptyString end)) col.
Proof.
  unfold split_code_label. destruct (_ <? 2)%nat; [discriminate|].
  intros H; injection H as <- <-. rewrite !map_map. split; reflexivity.
Qed.

Lemma zip_prep_map rows f1 g1 f2 g2 f3 g3 f4 g4 :
  zip_prep rows (map f1 rows) (map g1 rows) (map f2 rows) (map g2 rows)
    (map f3 rows) (map g3 rows) (map f4 rows) (map g4 rows) =
  map (fun rr => mk_prep rr (f1 rr) (g1 rr) (f2 rr) (g2 rr) (f3 rr) (g3 rr) (f4 rr) (g4 rr)) rows.
Proof. induction rows as [|rr rows IH]; simpl; [reflexivity|]. rewrite IH. reflexivity. Qed.

(** The rows of the prepared frame, cell by cell. *)
Lemma prepare_rows raw t rows cols :
  prepare_raw_dataframe raw t = Ok (rows, cols) ->
  rows = map (fun rr => mk_prep rr
                 (Some (lstrip_zeros (cell_token t 1 rr))) (Some (cell_label t 1 rr))
                 (Some (lstrip_zeros (cell_token t 2 rr))) (Some (cell_label t 2 rr))
                 (Some (lstrip_zeros (cell_token t 3 rr))) (Some (cell_label t 3 rr))
                 (Some (zfill 4 (cell_token t 4 rr))) (Some (cell_label t 4 rr)))
             (rt_rows raw).
Proof.
  unfold prepare_raw_dataframe. intros H.
  destruct (ensure_columns _ ["year"]) as [[]|]; [|discriminate]. cbn [rbind] in H.
  destruct (filter (String.prefix "daioe_") _) as [|d ds]; [discriminate|].
  destruct (ensure_columns _ (map (code_col_name t) [4; 3; 2; 1])) as [[]|];
    [|discriminate]. cbn [rbind] in H.
  destruct (split_code_label (column (code_col_name t 4) raw)) as [[c4 l4]|] eqn:E4;
    [|discriminate]. cbn [rbind] in H.
  destruct (split_code_label (column (code_col_name t 3) raw)) as [[c3 l3]|] eqn:E3;
    [|discriminate]. cbn [rbind] in H.
  destruct (split_code_label (column (code_col_name t 2) raw)) as [[c2 l2]|] eqn:E2;
    [|discriminate]. cbn [rbind] in H.
  destruct (split_code_label (column (code_col_name t 1) raw)) as [[c1 l1]|] eqn:E1;
    [|discriminate]. cbn [rbind] in H.
  injection H as <- _.
  apply split_code_label_ok in E4 as [-> ->], E3 as [-> ->], E2 as [-> ->], E1 as [-> ->].
  unfold str_map, column. rewrite !map_map. apply zip_prep_map.
Qed.

Lemma split_once_spec s :
  match split_once s with
  | (a, Some b) => s = (a ++ String " "%char b)%string /\ has_space a = false
  | (a, None) => s = a /\ has_space a = false
  end.
Proof.
  induction s as [|c s IH]; simpl; [split; reflexivity|].
  destruct (Ascii.eqb c " "%char) eqn:Ec.
  - apply Ascii.eqb_eq in Ec. subst. split; reflexivity.
  - destruct (split_once s) as [a [b|]]; destruct IH as [-> Ha]; simpl;
      rewrite Ec, Ha; split; reflexivity.
Qed.

Lemma length_zeros n : String.length (zeros n) = n.
Proof. induction n; simpl; congruence. Qed.

Lemma length_append_str s1 s2 :
  String.length (s1 ++ s2) = (String.length s1 + String.length s2)%nat.
Proof. induction s1; simpl; congruence. Qed.

Lemma zfill_length w s : String.length (zfill w s) = Nat.max w (String.length s).
Proof.
  unfold zfill. destruct (w <=? String.length s)%nat eqn:E.
  - apply Nat.leb_le in E. lia.
  - apply Nat.leb_gt in E. destruct s as [|c rest].
    + rewrite length_zeros. simpl in *. lia.
    + destruct (Ascii.eqb c "+"%char || Ascii.eqb c "-"%char); simpl in *;
        rewrite ?length_append_str, ?length_zeros; simpl; lia.
Qed.

Lemma lstrip_zeros_head s : starts_with_zero (lstrip_zeros s) = false.
Proof.
  induction s as [|c s IH]; simpl; [reflexivity|].
  destruct (Ascii.eqb c "0"%char) eqn:E; [exact IH|]. simpl. exact E.
Qed.

(** C4 (amended).  Each code-label cell is split at its first space
    character: the token is the text before it (the whole cell when there is
    no space, and it contains no space) and the label the text after it (""
    when there is no space).  The level-4 code is the token zero-filled on the
    left to at least 4 characters, numeric or not (its length is the maximum
    of 4 and the token's length); the level-1, -2 and -3 codes are the token
    with all its leading '0' characters removed (so they never start with
    '0'). *)
Theorem prepare_codes_and_labels :
  (forall s, match split_once s with
             | (a, Some b) => s = (a ++ String " "%char b)%string /\ has_space a = false
             | (a, None) => s = a /\ has_space a = false
             end) /\
  (forall raw t rows cols,
     prepare_raw_dataframe raw t = Ok (rows, cols) ->
     Forall2 (fun rr p =>
        code4 p = Some (zfill 4 (cell_token t 4 rr)) /\
        String.length (zfill 4 (cell_token t 4 rr))
          = Nat.max 4 (String.length (cell_token t 4 rr)) /\
        code3 p = Some (lstrip_zeros (cell_token t 3 rr)) /\
        code2 p = Some (lstrip_zeros (cell_token t 2 rr)) /\
        code1 p = Some (lstrip_zeros (cell_token t 1 rr)) /\
        starts_with_zero (lstrip_zeros (cell_token t 3 rr)) = false /\
        starts_with_zero (lstrip_zeros (cell_token t 2 rr)) = false /\
        starts_with_zero (lstrip_zeros (cell_token t 1 rr)) = false /\
        label4 p = Some (cell_label t 4 rr) /\ label3 p = Some (cell_label t 3 rr) /\
        label2 p = Some (cell_label t 2 rr) /\ label1 p = Some (cell_label t 1 rr))
       (rt_rows raw) rows).
Proof.
  split; [exact split_once_spec|].
  intros raw t rows cols H. apply prepare_rows in H as ->.
  induction (rt_rows raw) as [|rr rrs IH]; simpl; constructor; [|exact IH].
  rewrite zfill_length, !lstrip_zeros_head.
  repeat split.
Qed.

Lemma prepare_codes_and_labels_witness :
  exists rows cols,
    prepare_raw_dataframe ex_raw_long_code ssyk2012 = Ok (rows, cols) /\
    Forall2 (fun rr p =>
        code4 p = Some (zfill 4 (cell_token ssyk2012 4 rr)) /\
        String.length (zfill 4 (cell_token ssyk2012 4 rr))
          = Nat.max 4 (String.length (cell_token ssyk2012 4 rr)) /\
        code3 p = Some (lstrip_zeros (cell_token ssyk2012 3 rr)) /\
        code2 p = Some (lstrip_zeros (cell_token ssyk2012 2 rr)) /\
        code1 p = Some (lstrip_zeros (cell_token ssyk2012 1 rr)) /\
        starts_with_zero (lstrip_zeros (cell_token ssyk2012 3 rr)) = false /\
        starts_with_zero (lstrip_zeros (cell_token ssyk2012 2 rr)) = false /\
        starts_with_zero (lstrip_zeros (cell_token ssyk2012 1 rr)) = false /\
        label4 p = Some (cell_label ssyk2012 4 rr) /\ label3 p = Some (cell_label ssyk2012 3 rr) /\
        label2 p = Some (cell_label ssyk2012 2 rr) /\ label1 p = Some (cell_label ssyk2012 1 rr))
      (rt_rows ex_raw_long_code) rows.
Proof.
  eexists _, _. split; [reflexivity|].
  apply (proj2 prepare_codes_and_labels ex_raw_long_code ssyk2012 _ ["daioe_allapps"]).
  reflexivity.
Defined.

(** C4 (counterexample).  A level-4 cell "11111 Legislators" gives the
    level-4 code "11111", which is not 4 characters long. *)
Lemma prepare_long_code_not_four_chars :
  exists rows cols,
    prepare_raw_dataframe ex_raw_long_code ssyk2012 = Ok (rows, cols) /\
    map code4 rows = [Some "11111"] /\ String.length "11111" <> 4%nat.
Proof.
  eexists _, _. split; [reflexivity|]. split; [reflexivity|]. discriminate.
Qed.

Lemma split_code_label_in_pandas2 col :
  split_code_label_in pandas2 col = split_code_label col.
Proof.
  unfold split_code_label_in, split_code_label.
  assert (Hp : map (split_part_in pandas2) col =
               map (fun p => (Some (fst p), snd p)) (map (fun c => split_once (astype_str c)) col)).
  { rewrite map_map. apply map_ext. intros c. unfold split_part_in. simpl.
    destruct (split_once (astype_str c)); reflexivity. }
  rewrite Hp. generalize (map (fun c => split_once (astype_str c)) col). intros parts.
  assert (W : fold_right (fun p w => Nat.max w (match snd p with Some _ => 2 | None => 1 end)%nat)
                0%nat (map (fun p => (Some (fst p), snd p)) parts) =
              fold_right (fun p w => Nat.max w (match snd p with Some _ => 2 | None => 1 end)%nat)
                0%nat parts).
  { induction parts as [|p ps IH]; simpl; [reflexivity|]. rewrite IH. reflexivity. }
  rewrite W. destruct (_ <? 2)%nat; [reflexivity|]. rewrite !map_map. reflexivity.
Qed.

Lemma split_code_label_in_ok v col cs ls :
  split_code_label_in v col = Ok (cs, ls) ->
  cs = map (fun c => Some (match fst (split_part_in v c) with Some a => a | None => EmptyString end)) col /\
  ls = map (fun c => Some (match snd (split_part_in v c) with Some l => l | None => EmptyString end)) col.
Proof.
  unfold split_code_label_in. destruct (_ <? 2)%nat; [discriminate|].
  intros H; injection H as <- <-. rewrite !map_map. split; reflexivity.
Qed.

Lemma prepare_rows_in v raw t rows cols :
  prepare_raw_dataframe_in v raw t = Ok (rows, cols) ->
  let tok level rr := match fst (split_part_in v (text_cell (code_col_name t level) rr)) with
                      | Some a => a | None => EmptyString end in
  let lab level rr := match snd (split_part_in v (text_cell (code_col_name t level) rr)) with
                      | Some l => l | None => EmptyString end in
  rows = map (fun rr => mk_prep rr
                 (Some (lstrip_zeros (tok 1 rr))) (Some (lab 1 rr))
                 (Some (lstrip_zeros (tok 2 rr))) (Some (lab 2 rr))
                 (Some (lstrip_zeros (tok 3 rr))) (Some (lab 3 rr))
                 (Some (zfill 4 (tok 4 rr))) (Some (lab 4 rr)))
             (rt_rows raw).
Proof.
  unfold prepare_raw_dataframe_in. intros H. cbv zeta.
  destruct (ensure_columns _ ["year"]) as [[]|]; [|discriminate]. cbn [rbind] in H.
  destruct (filter (String.prefix "daioe_") _) as [|d ds]; [discriminate|].
  destruct (ensure_columns _ (map (code_col_name t) [4; 3; 2; 1])) as [[]|];
    [|discriminate]. cbn [rbind] in H.
  destruct (split_code_label_in v (column (code_col_name t 4) raw)) as [[c4 l4]|] eqn:E4;
    [|discriminate]. cbn [rbind] in H.
  destruct (split_code_label_in v (column (code_col_name t 3) raw)) as [[c3 l3]|] eqn:E3;
    [|discriminate]. cbn [rbind] in H.
  destruct (split_code_label_in v (column (code_col_name t 2) raw)) as [[c2 l2]|] eqn:E2;
    [|discriminate]. cbn [rbind] in H.
  destruct (split_code_label_in v (column (code_col_name t 1) raw)) as [[c1 l1]|] eqn:E1;
    [|discriminate]. cbn [rbind] in H.
  injection H as <- _.
  apply split_code_label_in_ok in E4 as [-> ->], E3 as [-> ->], E2 as [-> ->], E1 as [-> ->].
  unfold str_map, column. rewrite !map_map. apply zip_prep_map.
Qed.

(** C5 (amended).  A missing code-label cell is not passed through: the
    codes and the label prepared from it are present strings, never missing
    values.  This holds under pandas 2, where [astype(str)] renders the
    missing cell as "nan" (this version is the model [prepare_raw_dataframe]
    of the rest of the development), and under pandas 3, where the cell stays
    missing through the split and [fillna({0: "", 1: ""})] fills it. *)
Theorem prepare_missing_cell_present v raw t rows cols :
  prepare_raw_dataframe_in v raw t = Ok (rows, cols) ->
  prepare_raw_dataframe_in pandas2 raw t = prepare_raw_dataframe raw t /\
  Forall2 (fun rr p =>
     (text_cell (code_col_name t 4) rr = None ->
        is_some (code4 p) = true /\ is_some (label4 p) = true) /\
     (text_cell (code_col_name t 3) rr = None ->
        is_some (code3 p) = true /\ is_some (label3 p) = true) /\
     (text_cell (code_col_name t 2) rr = None ->
        is_some (code2 p) = true /\ is_some (label2 p) = true) /\
     (text_cell (code_col_name t 1) rr = None ->
        is_some (code1 p) = true /\ is_some (label1 p) = true))
    (rt_rows raw) rows.
Proof.
  intros H. split.
  - unfold prepare_raw_dataframe_in, prepare_raw_dataframe.
    rewrite !split_code_label_in_pandas2. reflexivity.
  - apply prepare_rows_in in H. cbv zeta in H. subst rows.
    induction (rt_rows raw) as [|rr rrs IH]; simpl; constructor; [|exact IH].
    repeat split.
Qed.

Lemma prepare_missing_cell_present_witness :
  exists rows cols,
    prepare_raw_dataframe_in pandas3 ex_raw_missing_cells ssyk2012 = Ok (rows, cols) /\
    prepare_raw_dataframe_in pandas2 ex_raw_missing_cells ssyk2012 =
      prepare_raw_dataframe ex_raw_missing_cells ssyk2012 /\
    Forall2 (fun rr p =>
     (text_cell (code_col_name ssyk2012 4) rr = None ->
        is_some (code4 p) = true /\ is_some (label4 p) = true) /\
     (text_cell (code_col_name ssyk2012 3) rr = None ->
        is_some (code3 p) = true /\ is_some (label3 p) = true) /\
     (text_cell (code_col_name ssyk2012 2) rr = None ->
        is_some (code2 p) = true /\ is_some (label2 p) = true) /\
     (text_cell (code_col_name ssyk2012 1) rr = None ->
        is_some (code1 p) = true /\ is_some (label1 p) = true))
      (rt_rows ex_raw_missing_cells) rows.
Proof.
  eexists _, _. split; [reflexivity|].
  apply (prepare_missing_cell_present pandas3 ex_raw_missing_cells ssyk2012 _ ["daioe_allapps"]).
  reflexivity.
Defined.

(** C5 (counterexample).  The second row of [ex_raw_missing_cells] has no
    code-label cells, yet its prepared codes and labels are present: under
    pandas 2 its level-4 code is "0nan" and its level-1 code "nan", under
    pandas 3 they are "0000" and "", and its level-4 label is "" in both. *)
Lemma prepare_missing_cell_not_absent :
  exists rows2 rows3 cols,
    prepare_raw_dataframe ex_raw_missing_cells ssyk2012 = Ok (rows2, cols) /\
    prepare_raw_dataframe_in pandas3 ex_raw_missing_cells ssyk2012 = Ok (rows3, cols) /\
    map (fun rr => text_cell "ssyk2012_4" rr) (rt_rows ex_raw_missing_cells)
      = [Some "0110 Officers"; None] /\
    map code4 rows2 = [Some "0110"; Some "0nan"] /\
    map code1 rows2 = [Some ""; Some "nan"] /\
    map code4 rows3 = [Some "0110"; Some "0000"] /\
    map code1 rows3 = [Some ""; Some ""] /\
    map label4 rows2 = [Some "Officers"; Some ""] /\
    map label4 rows3 = [Some "Officers"; Some ""].
Proof.
  eexists _, _, _. split; [reflexivity|]. split; [reflexivity|]. repeat split.
Qed.




(** C8 (amended).  At levels 1, 2 and 3, when the group of an output row
    contains a single leaf row, the simple aggregate of every metric equals
    that leaf's value (absent if it is absent): the mean of one value is the
    value itself, also in floating point.  The weighted aggregate is present
    exactly when the leaf's value and employment are present and the
    employment is non-zero; it is then [(v * e) / e], which floating-point
    rounding may move off [v] in the last bit, so only its presence is stated.
    When the leaf's employment is missing or 0, the weighted aggregate is
    absent. *)
Theorem aggregate_single_leaf df cols nch t level m rows o r i :
  (level = 1 \/ level = 2 \/ level = 3) ->
  aggregate_level df cols nch t level m = Ok rows ->
  In o rows -> group_of level df o = [r] -> (i < List.length cols)%nat ->
  match m with
  | simple => cell_eq (nth i (o_metrics o) None) (metric_at i (lr r))
  | weighted =>
      is_some (nth i (o_metrics o) None) =
      is_some (metric_at i (lr r)) &&
      match emp r with Some e => negb (Z.eqb e 0) | None => false end
  end.
Proof.
  intros Hlev Hagg Ho Hg Hi.
  destruct (aggregate_level_rows df cols nch t level m rows Hlev Hagg o Ho) as [_ [_ [_ Hm]]].
  rewrite Hm, Hg, nth_map_seq by exact Hi.
  destruct m.
  - unfold weighted_metric, emp_q, pd_sum. simpl.
    destruct (metric_at i (lr r)) as [v|]; [|reflexivity].
    destruct (emp r) as [e|]; simpl; [|reflexivity].
    destruct (Z.eqb_spec e 0) as [->|He]; [reflexivity|].
    unfold replace_zero.
    destruct (Qeq_bool (inject_Z e + 0) 0) eqn:E; [|reflexivity].
    apply Qeq_bool_iff in E. rewrite Qplus_0_r in E.
    exfalso. apply He. apply inject_Z_injective. exact E.
  - unfold simple_metric, pd_mean. simpl.
    destruct (metric_at i (lr r)) as [v|]; simpl; [|exact I].
    unfold Q_of_nat. simpl. field.
Qed.

Lemma aggregate_single_leaf_witness :
  exists rows o,
    aggregate_level ex_single_leaf ["daioe_allapps"] (compute_children_maps ex_single_leaf)
      ssyk2012 3 simple = Ok rows /\
    rows = [o] /\
    cell_eq (nth 0 (o_metrics o) None)
      (metric_at 0 (lr (ex_leaf "1111" "111" "Legislators" (Some (8 # 10)) None))).
Proof.
  eexists _, _. split; [reflexivity|]. split; [reflexivity|].
  exact (aggregate_single_leaf ex_single_leaf ["daioe_allapps"]
           (compute_children_maps ex_single_leaf) ssyk2012 3 simple _ _
           (ex_leaf "1111" "111" "Legislators" (Some (8 # 10)) None) 0
           (or_intror (or_intror eq_refl)) eq_refl (or_introl eq_refl) eq_refl
           ltac:(simpl; lia)).
Defined.

(** C8 (counterexample).  A level-3 group whose single leaf has value 0.8
    and a missing employment gets an absent weighted aggregate, while its
    simple aggregate is 0.8. *)
Lemma single_leaf_weighted_absent :
  exists ow os,
    aggregate_level ex_single_leaf ["daioe_allapps"] (compute_children_maps ex_single_leaf)
      ssyk2012 3 weighted = Ok [ow] /\
    aggregate_level ex_single_leaf ["daioe_allapps"] (compute_children_maps ex_single_leaf)
      ssyk2012 3 simple = Ok [os] /\
    o_n_children ow = Some 1 /\
    o_metrics ow = [None] /\
    cell_eq (nth 0 (o_metrics os) None) (Some (8 # 10)).
Proof.
  eexists _, _. split; [reflexivity|]. split; [reflexivity|].
  split; [reflexivity|]. split; [reflexivity|]. vm_compute. reflexivity.
Qed.

(** ** The run *)

(** C9.  A run of [run_weighting] that raises leaves the file store as it
    was: no output file is written or replaced.  A run that completes has
    written both output tables, the weighted one and the simple one. *)
Theorem run_weighting_all_or_nothing t fs r fs' :
  run_weighting t fs = (r, fs') ->
  (forall e, r = Err e -> fs' = fs) /\
  (forall p, r = Ok p ->
     exists w s, output_file (weighted_path t) fs' = Some w /\
                 output_file (simple_path t) fs' = Some s).
Proof.
  unfold run_weighting, pbind, load_daioe_raw, load_scb_employment, lift.
  destruct (fs_raw fs t) as [raw|];
    [|intros H; injection H as <- <-; split; [reflexivity|discriminate]].
  destruct (latest_file (fs_scb fs) t) as [scb|e];
    [|intros H; injection H as <- <-; split; [reflexivity|discriminate]].
  destruct (prepare_raw_dataframe raw t) as [[prep cols]|e];
    [|intros H; injection H as <- <-; split; [reflexivity|discriminate]].
  destruct (attach_employment prep scb) as [leaves|e];
    [|intros H; injection H as <- <-; split; [reflexivity|discriminate]].
  destruct (build_pipeline leaves cols t (compute_children_maps leaves) weighted) as [w|e];
    [|intros H; injection H as <- <-; split; [reflexivity|discriminate]].
  destruct (build_pipeline leaves cols t (compute_children_maps leaves) simple) as [s|e];
    [|intros H; injection H as <- <-; split; [reflexivity|discriminate]].
  unfold write_outputs, write_csv, pbind, pret. intros H. injection H as <- <-.
  split; [discriminate|]. intros p _. exists w, s.
  unfold output_file. simpl.
  destruct t; simpl; split; reflexivity.
Qed.

Lemma run_weighting_all_or_nothing_witness :
  let fs := {| fs_raw := fun _ => Some ex_raw_long_code;
               fs_scb := [("ssyk2012_2023.csv", ex_scb)]; fs_out := [] |} in
  exists p fs',
    run_weighting ssyk2012 fs = (Ok p, fs') /\
    (forall e, @Ok (string * string) p = Err e -> fs' = fs) /\
    (forall p', @Ok (string * string) p = Ok p' ->
       exists w s, output_file (weighted_path ssyk2012) fs' = Some w /\
                   output_file (simple_path ssyk2012) fs' = Some s).
Proof.
  intros fs. eexists _, _. split; [cbv; reflexivity|].
  apply (run_weighting_all_or_nothing ssyk2012 fs). reflexivity.
Defined.

(** ** The key columns of the two tables *)

Lemma map_fst_pair {A B} (f : A -> B) l : map fst (map (fun k => (k, f k)) l) = l.
Proof. induction l as [|a l IH]; simpl; [reflexivity|]. rewrite IH. reflexivity. Qed.

Lemma aggregate_level_ok df cols nch t level m :
  (level = 1 \/ level = 2 \/ level = 3) ->
  exists rows, aggregate_level df cols nch t level m = Ok rows.
Proof.
  intros Hlev. unfold aggregate_level.
  assert (Hc : negb (Z.eqb level 1 || Z.eqb level 2 || Z.eqb level 3) = false)
    by (destruct Hlev as [->|[->| ->]]; reflexivity).
  rewrite Hc. eexists. reflexivity.
Qed.

Lemma aggregate_level_keys df cols nch t level m :
  rmap (map out_key) (aggregate_level df cols nch t level m) =
  if negb (Z.eqb level 1 || Z.eqb level 2 || Z.eqb level 3) then Err ValueError
  else Ok (map (fun p => let '((y, c, l), nc) := p in (t, level, astype_str c, l, y, nc))
             (left_merge key2_eqb (fun k : key3 => (fst (fst k), snd (fst k)))
                (nch level) (group_keys3 level df))).
Proof.
  unfold aggregate_level. destruct (negb _); [reflexivity|]. simpl. f_equal.
  set (grouped := map (fun k => (k, map (fun i => (match m with weighted => weighted_metric
                                                   | simple => simple_metric end)
                                             i (filter (in_group3 level k) df))
                                       (seq 0 (List.length cols))))
                      (group_keys3 level df)).
  pose proof (left_merge_map key2_eqb fst (fun k : key3 => (fst (fst k), snd (fst k)))
                (nch level) grouped) as E.
  unfold grouped at 2 in E. rewrite map_fst_pair in E. rewrite <- E, !map_map.
  apply map_ext. intros [[[[y c] l] ms] nc]. reflexivity.
Qed.

Lemma aggregate_level_keys_method df cols nch t level :
  rmap (map out_key) (aggregate_level df cols nch t level weighted) =
  rmap (map out_key) (aggregate_level df cols nch t level simple).
Proof. rewrite !aggregate_level_keys. reflexivity. Qed.

Lemma add_percentiles_keys rows metrics :
  map out_key (add_percentiles rows metrics) = map out_key rows.
Proof. unfold add_percentiles. rewrite map_map. reflexivity. Qed.

Lemma out_leb_keys a b a' b' :
  out_key a = out_key a' -> out_key b = out_key b' -> out_leb a b = out_leb a' b'.
Proof.
  unfold out_key, out_leb. intros Ha Hb. injection Ha. injection Hb. intros.
  congruence.
Qed.

(** C10.  For every prepared input, the weighted and the simple tables have
    the same key columns (taxonomy, level, code, label, year, n_children),
    row by row and in the same order; they can differ only in the metric
    and percentile-rank columns. *)
Theorem pipeline_tables_row_aligned df cols t nch :
  rmap (map out_key) (build_pipeline df cols t nch weighted) =
  rmap (map out_key) (build_pipeline df cols t nch simple).
Proof.
  assert (H1 : (1 = 1 \/ 1 = 2 \/ 1 = 3)%Z) by lia.
  assert (H2 : (2 = 1 \/ 2 = 2 \/ 2 = 3)%Z) by lia.
  assert (H3 : (3 = 1 \/ 3 = 2 \/ 3 = 3)%Z) by lia.
  destruct (aggregate_level_ok df cols nch t 1 weighted H1) as [w1 Hw1].
  destruct (aggregate_level_ok df cols nch t 2 weighted H2) as [w2 Hw2].
  destruct (aggregate_level_ok df cols nch t 3 weighted H3) as [w3 Hw3].
  destruct (aggregate_level_ok df cols nch t 1 simple H1) as [s1 Hs1].
  destruct (aggregate_level_ok df cols nch t 2 simple H2) as [s2 Hs2].
  destruct (aggregate_level_ok df cols nch t 3 simple H3) as [s3 Hs3].
  pose proof (aggregate_level_keys_method df cols nch t 1) as K1.
  pose proof (aggregate_level_keys_method df cols nch t 2) as K2.
  pose proof (aggregate_level_keys_method df cols nch t 3) as K3.
  rewrite Hw1, Hs1 in K1. rewrite Hw2, Hs2 in K2. rewrite Hw3, Hs3 in K3.
  injection K1 as K1. injection K2 as K2. injection K3 as K3.
  unfold build_pipeline. rewrite Hw1, Hw2, Hw3, Hs1, Hs2, Hs3. simpl. f_equal.
  apply sort_by_map_eq; [exact out_leb_keys|].
  rewrite !add_percentiles_keys, !map_app, K1, K2, K3. reflexivity.
Qed.

(** ** What the simple table reads of the leaf rows *)

Lemma filter_lr (p : PrepRow -> bool) df1 df2 :
  map lr df1 = map lr df2 ->
  map lr (filter (fun r => p (lr r)) df1) = map lr (filter (fun r => p (lr r)) df2).
Proof.
  revert df2; induction df1 as [|r1 df1 IH]; intros [|r2 df2] H; simpl in *;
    try discriminate; [reflexivity|].
  injection H as E H. rewrite E. destruct (p (lr r2)); simpl; rewrite (IH df2 H);
    [rewrite E|]; reflexivity.
Qed.

Lemma group_keys2_lr level df1 df2 :
  map lr df1 = map lr df2 -> group_keys2 level df1 = group_keys2 level df2.
Proof.
  intros H. unfold group_keys2.
  rewrite <- (map_map lr (fun p => (year p, code_at level p)) df1),
          <- (map_map lr (fun p => (year p, code_at level p)) df2), H.
  reflexivity.
Qed.

Lemma group_keys3_lr level df1 df2 :
  map lr df1 = map lr df2 -> group_keys3 level df1 = group_keys3 level df2.
Proof.
  intros H. unfold group_keys3.
  assert (E : forall df, map (key3_of level) df =
                         map (fun p => (year p, code_at level p, label_at level p)) (map lr df))
    by (intros df; rewrite map_map; reflexivity).
  rewrite !E, H. reflexivity.
Qed.

Lemma compute_children_maps_lr df1 df2 level :
  map lr df1 = map lr df2 -> compute_children_maps df1 level = compute_children_maps df2 level.
Proof.
  intros H. unfold compute_children_maps.
  rewrite (group_keys2_lr 4 df1 df2 H), (group_keys2_lr level df1 df2 H).
  destruct (Z.eqb level 4); [reflexivity|].
  apply map_ext. intros k. f_equal. unfold nunique.
  rewrite <- (map_map lr (code_at (level + 1)) (filter (in_group2 level k) df1)),
          <- (map_map lr (code_at (level + 1)) (filter (in_group2 level k) df2)).
  assert (F : map lr (filter (in_group2 level k) df1) = map lr (filter (in_group2 level k) df2))
    by exact (filter_lr (fun p => key2_eqb (year p, code_at level p) k) df1 df2 H).
  rewrite F. reflexivity.
Qed.

Lemma simple_metric_lr i g1 g2 :
  map lr g1 = map lr g2 -> simple_metric i g1 = simple_metric i g2.
Proof.
  intros H. unfold simple_metric.
  rewrite <- (map_map lr (metric_at i) g1), <- (map_map lr (metric_at i) g2), H.
  reflexivity.
Qed.

Lemma aggregate_simple_lr df1 df2 cols nch t level :
  map lr df1 = map lr df2 ->
  aggregate_level df1 cols nch t level simple = aggregate_level df2 cols nch t level simple.
Proof.
  intros H. unfold aggregate_level. destruct (negb _); [reflexivity|].
  rewrite (group_keys3_lr level df1 df2 H).
  assert (G : forall k, map (fun i => simple_metric i (filter (in_group3 level k) df1))
                            (seq 0 (List.length cols)) =
                        map (fun i => simple_metric i (filter (in_group3 level k) df2))
                            (seq 0 (List.length cols))).
  { intros k. apply map_ext. intros i. apply simple_metric_lr.
    exact (filter_lr (fun p => key3_eqb (year p, code_at level p, label_at level p) k)
             df1 df2 H). }
  erewrite map_ext with (l := group_keys3 level df2);
    [reflexivity|]. intros k. cbv beta. rewrite G. reflexivity.
Qed.

Lemma base_level_four_lr df1 df2 cols t nch :
  map lr df1 = map lr df2 -> base_level_four df1 cols t nch = base_level_four df2 cols t nch.
Proof.
  intros H. unfold base_level_four.
  pose proof (left_merge_map key2_eqb lr (fun p => (year p, code4 p)) nch df1) as E1.
  pose proof (left_merge_map key2_eqb lr (fun p => (year p, code4 p)) nch df2) as E2.
  rewrite H, <- E2 in E1.
  set (g := fun p : PrepRow * option Z => let '(r, nc) := p in
         {| o_taxonomy := t; o_level := 4; o_code := astype_str (code4 r);
            o_label := label4 r; o_year := year r; o_n_children := nc;
            o_metrics := metrics r; o_pct := [] |}).
  transitivity (map g (map (fun p => (lr (fst p), snd p))
     (left_merge key2_eqb (fun a => (year (lr a), code4 (lr a))) nch df1))).
  { rewrite map_map. apply map_ext. intros [r nc]. reflexivity. }
  rewrite E1, map_map. apply map_ext. intros [r nc]. reflexivity.
Qed.

Lemma build_pipeline_nch_ext df cols t nch1 nch2 m :
  (forall level, nch1 level = nch2 level) ->
  build_pipeline df cols t nch1 m = build_pipeline df cols t nch2 m.
Proof.
  intros H. unfold build_pipeline, aggregate_level, base_level_four. rewrite !H. reflexivity.
Qed.

Lemma build_simple_lr df1 df2 cols t nch :
  map lr df1 = map lr df2 ->
  build_pipeline df1 cols t nch simple = build_pipeline df2 cols t nch simple.
Proof.
  intros H. unfold build_pipeline.
  rewrite (base_level_four_lr df1 df2 cols t (nch 4) H),
          !(aggregate_simple_lr df1 df2 cols nch t _ H).
  reflexivity.
Qed.

Lemma attach_employment_lr prep scb out :
  attach_employment prep scb = Ok out -> map lr out = prep.
Proof.
  unfold attach_employment. cbv zeta.
  destruct (filter (fun s => Z.eqb (s_level s) 4) scb) as [|s0 rest]; [discriminate|].
  destruct (has_dup (map fst (map (fun s => (zfill 4 (s_code s), s_value s)) (s0 :: rest))))
    eqn:Hd; [discriminate|].
  intros H. injection H as <-. apply has_dup_false in Hd.
  rewrite (left_merge_one_each opt_str_eqb opt_str_eqb_spec code4 _ prep).
  - rewrite !map_map. rewrite <- (map_id prep) at 2. apply map_ext. intros a. reflexivity.
  - replace (map fst _)
      with (map Some (map fst (map (fun s => (zfill 4 (s_code s), s_value s)) (s0 :: rest))))
      by (simpl; rewrite !map_map; reflexivity).
    apply NoDup_map_Some. exact Hd.
Qed.

Lemma run_weighting_ok_inv t fs p fs' :
  run_weighting t fs = (Ok p, fs') ->
  exists raw scb prep cols leaves s,
    fs_raw fs t = Some raw /\ prepare_raw_dataframe raw t = Ok (prep, cols) /\
    attach_employment prep scb = Ok leaves /\
    build_pipeline leaves cols t (compute_children_maps leaves) simple = Ok s /\
    output_file (simple_path t) fs' = Some s.
Proof.
  unfold run_weighting, pbind, load_daioe_raw, load_scb_employment, lift.
  destruct (fs_raw fs t) as [raw|]; [|discriminate].
  destruct (latest_file (fs_scb fs) t) as [scb|e]; [|discriminate].
  destruct (prepare_raw_dataframe raw t) as [[prep cols]|e] eqn:HP; [|discriminate].
  destruct (attach_employment prep scb) as [leaves|e] eqn:HA; [|discriminate].
  destruct (build_pipeline leaves cols t (compute_children_maps leaves) weighted) as [w|e];
    [|discriminate].
  destruct (build_pipeline leaves cols t (compute_children_maps leaves) simple) as [s|e] eqn:HS;
    [|discriminate].
  unfold write_outputs, write_csv, pbind, pret. intros H. injection H as _ <-.
  exists raw, scb, prep, cols, leaves, s. repeat split; try assumption.
  unfold output_file. simpl. destruct t; reflexivity.
Qed.

(** C7.  Two runs on the same raw DAIOE file write the same simple-average
    table, whatever their employment files are (values changed, rows added or
    removed), as long as both runs complete: the simple aggregates never read
    the employment column. *)
Theorem simple_output_independent_of_employment t fs1 fs2 p1 p2 fs1' fs2' :
  fs_raw fs1 t = fs_raw fs2 t ->
  run_weighting t fs1 = (Ok p1, fs1') ->
  run_weighting t fs2 = (Ok p2, fs2') ->
  output_file (simple_path t) fs1' = output_file (simple_path t) fs2'.
Proof.
  intros Hraw H1 H2.
  apply run_weighting_ok_inv in H1 as (raw1 & scb1 & prep1 & cols1 & l1 & s1 & R1 & P1 & A1 & B1 & O1).
  apply run_weighting_ok_inv in H2 as (raw2 & scb2 & prep2 & cols2 & l2 & s2 & R2 & P2 & A2 & B2 & O2).
  rewrite O1, O2. rewrite Hraw, R2 in R1. injection R1 as <-.
  rewrite P1 in P2. injection P2 as <- <-.
  apply attach_employment_lr in A1, A2.
  assert (L : map lr l1 = map lr l2) by congruence.
  rewrite (build_pipeline_nch_ext l1 cols1 t (compute_children_maps l1)
             (compute_children_maps l2) simple) in B1
    by (intros level; apply compute_children_maps_lr; exact L).
  rewrite (build_simple_lr l1 l2 cols1 t (compute_children_maps l2) L) in B1.
  congruence.
Qed.

Lemma simple_output_independent_of_employment_witness :
  let fs1 := {| fs_raw := fun _ => Some ex_raw_long_code;
                fs_scb := [("ssyk2012_2023.csv", ex_scb)]; fs_out := [] |} in
  let fs2 := {| fs_raw := fun _ => Some ex_raw_long_code;
                fs_scb := [("ssyk2012_2024.csv",
                            [{| s_level := 4; s_code := "11111"; s_value := 5 |}])];
                fs_out := [] |} in
  exists p1 p2 fs1' fs2',
    run_weighting ssyk2012 fs1 = (Ok p1, fs1') /\
    run_weighting ssyk2012 fs2 = (Ok p2, fs2') /\
    output_file (simple_path ssyk2012) fs1' = output_file (simple_path ssyk2012) fs2'.
Proof.
  intros fs1 fs2. eexists _, _, _, _.
  split; [cbv; reflexivity|]. split; [cbv; reflexivity|].
  eapply (simple_output_independent_of_employment ssyk2012 fs1 fs2);
    [reflexivity | cbv; reflexivity | cbv; reflexivity].
Defined.

(** * Further properties of the weighting script *)

(** ** [split_code_label] *)

Lemma split_once_has_space s : is_some (snd (split_once s)) = has_space s.
Proof.
  induction s as [|c s IH]; simpl; [reflexivity|].
  destruct (Ascii.eqb c " "%char); simpl; [reflexivity|].
  destruct (split_once s) as [a b]. exact IH.
Qed.

Lemma split_width_lt2 series :
  (fold_right (fun p w => Nat.max w (match snd p with Some _ => 2 | None => 1 end)%nat)
     0%nat (map (fun c => split_once (astype_str c)) series) <? 2)%nat
  = forallb (fun c => negb (has_space (astype_str c))) series.
Proof.
  induction series as [|c series IH]; simpl; [reflexivity|].
  rewrite <- split_once_has_space.
  destruct (snd (split_once (astype_str c))); simpl.
  - apply Nat.ltb_ge. lia.
  - rewrite <- IH.
    destruct (Nat.ltb_spec (fold_right (fun p w => Nat.max w (match snd p with Some _ => 2 | None => 1 end)%nat)
              0%nat (map (fun c => split_once (astype_str c)) series)) 2);
    [apply Nat.ltb_lt|apply Nat.ltb_ge]; lia.
Qed.

(** [split_code_label] raises [KeyError] exactly when no cell of the column,
    rendered by [astype(str)], contains a space - in particular on an empty
    column: [expand=True] then builds no column 1.  Otherwise it returns one
    code and one label per cell. *)
Theorem split_code_label_error_iff_no_space series :
  (split_code_label series = Err KeyError <->
   Forall (fun c => has_space (astype_str c) = false) series) /\
  (Exists (fun c => has_space (astype_str c) = true) series ->
   exists codes labels, split_code_label series = Ok (codes, labels) /\
     List.length codes = List.length series /\ List.length labels = List.length series).
Proof.
  unfold split_code_label. rewrite split_width_lt2.
  assert (Hf : forallb (fun c => negb (has_space (astype_str c))) series = true <->
               Forall (fun c => has_space (astype_str c) = false) series).
  { rewrite forallb_forall, Forall_forall. split; intros H c Hc; specialize (H c Hc);
      destruct (has_space (astype_str c)); simpl in *; congruence. }
  split.
  - rewrite <- Hf. destruct (forallb _ series); split; congruence.
  - intros Hex. destruct (forallb _ series) eqn:E.
    + pose proof (proj1 Hf eq_refl) as F. rewrite Forall_forall in F.
      apply Exists_exists in Hex as [c [Hc Hs]]. rewrite (F c Hc) in Hs. discriminate.
    + eexists _, _. split; [reflexivity|]. rewrite !length_map. split; reflexivity.
Qed.

Lemma split_code_label_error_iff_no_space_witness :
  split_code_label [Some "1 Managers"; None] = Ok ([Some "1"; Some "nan"], [Some "Managers"; Some ""]) /\
  split_code_label [None; Some "0110"] = Err KeyError /\
  split_code_label [] = Err KeyError.
Proof.
  split; [reflexivity|]. split.
  - apply (proj1 (split_code_label_error_iff_no_space _)). repeat constructor.
  - apply (proj1 (split_code_label_error_iff_no_space [])). constructor.
Defined.

(** ** [ensure_columns] and the checks of [prepare_raw_dataframe] *)

Lemma ensure_columns_spec cols req :
  (ensure_columns cols req = Ok tt <-> Forall (fun c => In c cols) req) /\
  (ensure_columns cols req = Ok tt \/ ensure_columns cols req = Err KeyError).
Proof.
  unfold ensure_columns.
  assert (E : filter (fun c => negb (existsb (String.eqb c) cols)) req = [] <->
              Forall (fun c => In c cols) req).
  { induction req as [|c req IH]; simpl; [split; constructor|].
    destruct (existsb (String.eqb c) cols) eqn:Ec; simpl.
    - rewrite IH. split; [intros H; constructor; [|exact H]|intros H; inversion H; assumption].
      apply existsb_exists in Ec as [x [Hx Ex]]. apply String.eqb_eq in Ex. subst. exact Hx.
    - split; [discriminate|]. intros H. inversion H as [|? ? Hin]. subst.
      exfalso. assert (existsb (String.eqb c) cols = true) by
        (apply existsb_exists; exists c; split; [exact Hin|apply String.eqb_refl]).
      congruence. }
  destruct (filter _ req) as [|x rest]; split.
  - split; [intros _; apply E; reflexivity|reflexivity].
  - left; reflexivity.
  - split; [discriminate|intros H; apply E in H; discriminate].
  - right; reflexivity.
Qed.

Lemma in_cols_dropped x cols :
  x <> "Unnamed: 0" ->
  In x (filter (fun c => negb (String.eqb c "Unnamed: 0")) cols) <-> In x cols.
Proof.
  intros Hx. rewrite filter_In. apply String.eqb_neq in Hx. rewrite Hx. tauto.
Qed.

(** [prepare_raw_dataframe] only ever raises [KeyError].  It raises it when the
    table (the column "Unnamed: 0" dropped) has no "year" column, no column
    whose name starts with "daioe_", or lacks one of the four code columns of
    the taxonomy.  When it succeeds, the metric columns it returns are the
    columns whose name starts with "daioe_", in the table's order, and there
    is at least one. *)
Theorem prepare_raw_dataframe_columns raw t :
  let cols := filter (fun c => negb (String.eqb c "Unnamed: 0")) (rt_columns raw) in
  (forall e, prepare_raw_dataframe raw t = Err e -> e = KeyError) /\
  ((~ In "year" (rt_columns raw) \/ filter (String.prefix "daioe_") cols = [] \/
    exists level, In level [1; 2; 3; 4] /\ ~ In (code_col_name t level) (rt_columns raw)) ->
   prepare_raw_dataframe raw t = Err KeyError) /\
  (forall rows dcols, prepare_raw_dataframe raw t = Ok (rows, dcols) ->
     dcols = filter (String.prefix "daioe_") cols /\ dcols <> [] /\
     In "year" (rt_columns raw) /\
     forall level, In level [1; 2; 3; 4] -> In (code_col_name t level) (rt_columns raw)).
Proof.
  intros cols.
  assert (Hcode : forall level, In level [1; 2; 3; 4] ->
             (In (code_col_name t level) cols <-> In (code_col_name t level) (rt_columns raw))).
  { intros level Hl. apply in_cols_dropped.
    destruct Hl as [<-|[<-|[<-|[<-|[]]]]]; destruct t; discriminate. }
  assert (Hyear : In "year" cols <-> In "year" (rt_columns raw))
    by (apply in_cols_dropped; discriminate).
  unfold prepare_raw_dataframe. fold cols.
  destruct (ensure_columns_spec cols ["year"]) as [Ey [Ey'|Ey']];
    rewrite Ey'; cbn [rbind].
  2:{ split; [intros e He; injection He as <-; reflexivity|]. split; [intros _; reflexivity|].
      intros rows dcols H; discriminate. }
  assert (Hy : In "year" (rt_columns raw))
    by (apply Hyear; apply Ey in Ey'; inversion Ey'; assumption).
  destruct (filter (String.prefix "daioe_") cols) as [|d ds] eqn:Hd.
  { split; [intros e He; injection He as <-; reflexivity|]. split; [intros _; reflexivity|].
    intros rows dcols H; discriminate. }
  destruct (ensure_columns_spec cols (map (code_col_name t) [4; 3; 2; 1])) as [Ec [Ec'|Ec']];
    rewrite Ec'; cbn [rbind].
  2:{ split; [intros e He; injection He as <-; reflexivity|]. split; [intros _; reflexivity|].
      intros rows dcols H; discriminate. }
  assert (Hc : forall level, In level [1; 2; 3; 4] -> In (code_col_name t level) (rt_columns raw)).
  { intros level Hl. apply (Hcode level Hl). apply Ec in Ec'. rewrite Forall_forall in Ec'.
    apply Ec'. apply in_map. destruct Hl as [<-|[<-|[<-|[<-|[]]]]]; simpl; tauto. }
  assert (Hsplit : forall series, forall e, split_code_label series = Err e -> e = KeyError).
  { intros series e. unfold split_code_label. destruct (_ <? 2)%nat; [congruence|discriminate]. }
  split; [|split].
  - intros e.
    destruct (split_code_label (column (code_col_name t 4) raw)) as [[c4 l4]|e4] eqn:E4;
      cbn [rbind]; [|intros He; injection He as <-; exact (Hsplit _ _ E4)].
    destruct (split_code_label (column (code_col_name t 3) raw)) as [[c3 l3]|e3] eqn:E3;
      cbn [rbind]; [|intros He; injection He as <-; exact (Hsplit _ _ E3)].
    destruct (split_code_label (column (code_col_name t 2) raw)) as [[c2 l2]|e2] eqn:E2;
      cbn [rbind]; [|intros He; injection He as <-; exact (Hsplit _ _ E2)].
    destruct (split_code_label (column (code_col_name t 1) raw)) as [[c1 l1]|e1] eqn:E1;
      cbn [rbind]; [discriminate|intros He; injection He as <-; exact (Hsplit _ _ E1)].
  - intros [H|[H|[level [Hl H]]]]; exfalso; [contradiction|discriminate|].
    exact (H (Hc level Hl)).
  - intros rows dcols H.
    destruct (split_code_label (column (code_col_name t 4) raw)) as [[c4 l4]|e4];
      cbn [rbind] in H; [|discriminate].
    destruct (split_code_label (column (code_col_name t 3) raw)) as [[c3 l3]|e3];
      cbn [rbind] in H; [|discriminate].
    destruct (split_code_label (column (code_col_name t 2) raw)) as [[c2 l2]|e2];
      cbn [rbind] in H; [|discriminate].
    destruct (split_code_label (column (code_col_name t 1) raw)) as [[c1 l1]|e1];
      cbn [rbind] in H; [|discriminate].
    injection H as _ <-. split; [reflexivity|]. split; [discriminate|]. split; assumption.
Qed.

Lemma prepare_raw_dataframe_columns_witness :
  (exists rows, prepare_raw_dataframe ex_raw_long_code ssyk2012 = Ok (rows, ["daioe_allapps"]) /\
     ["daioe_allapps"] <> [] /\ In "year" (rt_columns ex_raw_long_code)) /\
  prepare_raw_dataframe {| rt_columns := ["year"; "ssyk2012_4"; "ssyk2012_3"; "ssyk2012_2";
                                          "ssyk2012_1"; "allapps"];
                           rt_rows := rt_rows ex_raw_long_code |} ssyk2012 = Err KeyError.
Proof.
  split.
  - eexists. split; [reflexivity|].
    destruct (prepare_raw_dataframe_columns ex_raw_long_code ssyk2012) as [_ [_ H3]].
    destruct (H3 _ _ eq_refl) as [_ [Hne [Hy _]]]. split; assumption.
  - apply (prepare_raw_dataframe_columns
             {| rt_columns := ["year"; "ssyk2012_4"; "ssyk2012_3"; "ssyk2012_2";
                               "ssyk2012_1"; "allapps"];
                rt_rows := rt_rows ex_raw_long_code |} ssyk2012).
    right; left; reflexivity.
Defined.

(** [prepare_raw_dataframe] keeps the raw rows: one prepared row per raw row,
    in order, each with the year and the metric values of its raw row. *)
Theorem prepare_raw_dataframe_keeps_rows raw t rows cols :
  prepare_raw_dataframe raw t = Ok (rows, cols) ->
  List.length rows = List.length (rt_rows raw) /\
  Forall2 (fun rr p => year p = rr_year rr /\ metrics p = rr_metrics rr) (rt_rows raw) rows.
Proof.
  intros H. apply prepare_rows in H as ->. rewrite length_map. split; [reflexivity|].
  induction (rt_rows raw) as [|rr rrs IH]; simpl; constructor; [split; reflexivity|exact IH].
Qed.

Lemma prepare_raw_dataframe_keeps_rows_witness :
  exists rows,
    prepare_raw_dataframe ex_raw_missing_cells ssyk2012 = Ok (rows, ["daioe_allapps"]) /\
    List.length rows = List.length (rt_rows ex_raw_missing_cells) /\
    Forall2 (fun rr p => year p = rr_year rr /\ metrics p = rr_metrics rr)
      (rt_rows ex_raw_missing_cells) rows.
Proof.
  eexists. split; [reflexivity|].
  apply (prepare_raw_dataframe_keeps_rows ex_raw_missing_cells ssyk2012 _ ["daioe_allapps"]).
  reflexivity.
Defined.

(** ** [attach_employment] reads only the level-4 rows *)

Lemma filter_idem {A} (f : A -> bool) l : filter f (filter f l) = filter f l.
Proof.
  induction l as [|a l IH]; simpl; [reflexivity|].
  destruct (f a) eqn:E; simpl; rewrite ?E, IH; reflexivity.
Qed.

(** The rows of the employment table at levels other than 4 play no part in
    [attach_employment]: the result (the joined rows or the error) is the
    same with them removed. *)
Theorem attach_employment_level4_only prep scb :
  attach_employment prep scb = attach_employment prep (scb_level4 scb).
Proof. unfold attach_employment, scb_level4. rewrite filter_idem. reflexivity. Qed.

(** ** What a run writes *)

Lemma find_filter_other (path q : string) (l : list (string * list OutRow)) :
  path <> q ->
  find (fun f => String.eqb (fst f) path) (filter (fun f => negb (String.eqb (fst f) q)) l) =
  find (fun f => String.eqb (fst f) path) l.
Proof.
  intros Hpq. induction l as [|[n tb] l IH]; simpl; [reflexivity|].
  destruct (String.eqb_spec n q) as [->|Hn]; simpl.
  - apply String.eqb_neq in Hpq. rewrite String.eqb_sym, Hpq. exact IH.
  - destruct (String.eqb n path); [reflexivity|exact IH].
Qed.

Lemma find_after_two_writes (a b : string) (w s : list OutRow) l path :
  path <> a -> path <> b -> a <> b ->
  find (fun f => String.eqb (fst f) path)
    ((b, s) :: filter (fun f => negb (String.eqb (fst f) b))
                 ((a, w) :: filter (fun f => negb (String.eqb (fst f) a)) l)) =
  find (fun f => String.eqb (fst f) path) l.
Proof.
  intros Ha Hb Hab. simpl.
  assert (E1 : String.eqb b path = false) by (apply String.eqb_neq; congruence).
  assert (E2 : String.eqb a b = false) by (apply String.eqb_neq; exact Hab).
  assert (E3 : String.eqb a path = false) by (apply String.eqb_neq; congruence).
  rewrite E1, E2. simpl. rewrite find_filter_other by exact Hb.
  simpl. rewrite E3. apply find_filter_other. exact Ha.
Qed.

(** [run_weighting] never changes its inputs (the raw DAIOE files and the SCB
    files) nor any output file other than its own two; when it succeeds it
    returns the paths of the weighted and the simple-average files. *)
Theorem run_weighting_frame t fs r fs' :
  run_weighting t fs = (r, fs') ->
  fs_raw fs' = fs_raw fs /\ fs_scb fs' = fs_scb fs /\
  (forall path, path <> weighted_path t -> path <> simple_path t ->
     output_file path fs' = output_file path fs) /\
  (forall p, r = Ok p -> p = (weighted_path t, simple_path t)).
Proof.
  unfold run_weighting, pbind, load_daioe_raw, load_scb_employment, lift.
  destruct (fs_raw fs t) as [raw|];
    [|intros H; injection H as <- <-; repeat split; discriminate].
  destruct (latest_file (fs_scb fs) t) as [scb|e];
    [|intros H; injection H as <- <-; repeat split; discriminate].
  destruct (prepare_raw_dataframe raw t) as [[prep cols]|e];
    [|intros H; injection H as <- <-; repeat split; discriminate].
  destruct (attach_employment prep scb) as [leaves|e];
    [|intros H; injection H as <- <-; repeat split; discriminate].
  destruct (build_pipeline leaves cols t (compute_children_maps leaves) weighted) as [w|e];
    [|intros H; injection H as <- <-; repeat split; discriminate].
  destruct (build_pipeline leaves cols t (compute_children_maps leaves) simple) as [s|e];
    [|intros H; injection H as <- <-; repeat split; discriminate].
  unfold write_outputs, write_csv, pbind, pret. intros H. injection H as <- <-.
  split; [reflexivity|]. split; [reflexivity|]. split.
  - intros path Hw Hs. unfold output_file.
    assert (Hws : weighted_path t <> simple_path t) by (destruct t; discriminate).
    exact (f_equal (option_map snd)
             (find_after_two_writes _ _ w s (fs_out fs) path Hw Hs Hws)).
  - intros p Hp. injection Hp as <-. reflexivity.
Qed.

Lemma run_weighting_frame_witness :
  let fs := {| fs_raw := fun _ => Some ex_raw_long_code;
               fs_scb := [("ssyk2012_2023.csv", ex_scb)];
               fs_out := [("03_daioe_aggregated/other.csv", [])] |} in
  exists r fs',
    run_weighting ssyk2012 fs = (r, fs') /\
    fs_raw fs' = fs_raw fs /\ fs_scb fs' = fs_scb fs /\
    (forall path, path <> weighted_path ssyk2012 -> path <> simple_path ssyk2012 ->
       output_file path fs' = output_file path fs) /\
    (forall p, r = Ok p -> p = (weighted_path ssyk2012, simple_path ssyk2012)).
Proof.
  intros fs. eexists _, _. split; [cbv; reflexivity|].
  apply (run_weighting_frame ssyk2012 fs). cbv. reflexivity.
Defined.

(** ** The level-4 rows and the size of the tables *)

Lemma group_keys2_in level df k :
  In k (group_keys2 level df) <->
  In k (map (fun r => (year (lr r), code_at level (lr r))) df) /\ is_some (snd k) = true.
Proof.
  unfold group_keys2.
  destruct (dedup_from_spec key2_eqb key2_eqb_spec []
              (filter (fun k => is_some (snd k))
                 (map (fun r => (year (lr r), code_at level (lr r))) df))) as [_ Hin].
  split.
  - intros H. apply (Permutation_in _ (sort_by_perm _ _)) in H.
    apply Hin in H as [H _]. apply filter_In in H. exact H.
  - intros H. apply (Permutation_in _ (Permutation_sym (sort_by_perm _ _))).
    apply Hin. split; [apply filter_In; exact H|intros []].
Qed.

Lemma base_level_four_map df cols t :
  base_level_four df cols t (compute_children_maps df 4) =
  map (fun r => {| o_taxonomy := t; o_level := 4; o_code := astype_str (code4 (lr r));
                   o_label := label4 (lr r); o_year := year (lr r);
                   o_n_children := if is_some (code4 (lr r)) then Some 1 else None;
                   o_metrics := metrics (lr r); o_pct := [] |}) df.
Proof.
  unfold base_level_four.
  pose proof (children_keys_nodup df 4) as Hnd.
  change (compute_children_maps df 4) with (map (fun k => (k, 1)) (group_keys2 4 df)) in *.
  rewrite (left_merge_one_each key2_eqb key2_eqb_spec _ _ df Hnd), map_map.
  apply map_ext_in. intros r Hr.
  set (right := map (fun k : key2 => (k, 1)) (group_keys2 4 df)).
  assert (Hsnd : forall kb, In kb right -> snd kb = 1).
  { intros kb Hkb. unfold right in Hkb. apply in_map_iff in Hkb as [k [<- _]]. reflexivity. }
  destruct (code4 (lr r)) as [c|] eqn:Ec; simpl.
  - assert (Hk : In ((year (lr r), Some c), 1) right).
    { unfold right. apply (in_map (fun k : key2 => (k, 1))). apply group_keys2_in.
      split; [|reflexivity]. rewrite <- Ec.
      exact (in_map (fun r => (year (lr r), code_at 4 (lr r))) df r Hr). }
    destruct (filter (fun kb => key2_eqb (year (lr r), Some c) (fst kb)) right) as [|kb rest] eqn:F.
    + exfalso. assert (Hf : In ((year (lr r), Some c), 1)
                          (filter (fun kb => key2_eqb (year (lr r), Some c) (fst kb)) right)).
      { apply filter_In. split; [exact Hk|]. apply key2_eqb_spec. reflexivity. }
      rewrite F in Hf. destruct Hf.
    + assert (Hkb : In kb (filter (fun kb => key2_eqb (year (lr r), Some c) (fst kb)) right))
        by (rewrite F; left; reflexivity).
      apply filter_In in Hkb as [Hkb _]. rewrite (Hsnd kb Hkb). reflexivity.
  - rewrite (filter_key_none key2_eqb key2_eqb_spec right (year (lr r), None)); [reflexivity|].
    intros kb Hkb Heq. unfold right in Hkb. apply in_map_iff in Hkb as [k [<- Hk]].
    apply group_keys2_in in Hk as [_ Hs]. simpl in Heq. rewrite Heq in Hs. discriminate.
Qed.

(** [base_level_four], given the level-4 children counts of the run, passes
    every leaf row through, in order: one output row per leaf row (duplicates
    included), with the leaf's code (rendered by [astype(str)]), label, year
    and metric values, and [n_children] 1 when its level-4 code is present
    (missing otherwise, the key having been dropped by [groupby]). *)
Theorem base_level_four_one_row_per_leaf df cols t :
  base_level_four df cols t (compute_children_maps df 4) =
  map (fun r => {| o_taxonomy := t; o_level := 4; o_code := astype_str (code4 (lr r));
                   o_label := label4 (lr r); o_year := year (lr r);
                   o_n_children := if is_some (code4 (lr r)) then Some 1 else None;
                   o_metrics := metrics (lr r); o_pct := [] |}) df.
Proof. apply base_level_four_map. Qed.


(** ** The children counts *)

Lemma dedup_length {A} (eqb : A -> A -> bool)
  (Heqb : forall x y, eqb x y = true <-> x = y) l :
  (List.length (dedup eqb l) <= List.length l)%nat /\
  (forall x, In x l -> (1 <= List.length (dedup eqb l))%nat).
Proof.
  destruct (dedup_from_spec eqb Heqb [] l) as [Hnd Hin]. split.
  - apply NoDup_incl_length; [exact Hnd|]. intros x Hx. apply Hin in Hx. tauto.
  - intros x Hx. assert (H : In x (dedup eqb l)) by (apply Hin; split; [exact Hx|intros []]).
    destruct (dedup eqb l); [destruct H|simpl; lia].
Qed.

(** At levels 1, 2 and 3, every entry of [compute_children_maps] is keyed by
    a (year, code) pair whose code is present, and counts at most as many
    children as the group has leaf rows, and at least one as soon as one leaf
    row of the group has a present code at the next level. *)
Theorem children_count_range df level k n :
  (level = 1 \/ level = 2 \/ level = 3) ->
  In (k, n) (compute_children_maps df level) ->
  is_some (snd k) = true /\
  (n <= Z.of_nat (List.length (filter (in_group2 level k) df)))%Z /\
  ((exists r, In r (filter (in_group2 level k) df) /\
              is_some (code_at (level + 1) (lr r)) = true) -> (1 <= n)%Z).
Proof.
  intros Hlev Hin. unfold compute_children_maps in Hin.
  assert (H4 : Z.eqb level 4 = false) by (apply Z.eqb_neq; lia).
  rewrite H4 in Hin. apply in_map_iff in Hin as [k' [E Hk]]. injection E as -> <-.
  split; [apply group_keys2_in in Hk; tauto|].
  unfold nunique.
  set (col := filter is_some (map (fun r => code_at (level + 1) (lr r))
                                  (filter (in_group2 level k) df))).
  destruct (dedup_length opt_str_eqb opt_str_eqb_spec col) as [Hle Hge].
  split.
  - apply Nat2Z.inj_le. etransitivity; [exact Hle|].
    unfold col. etransitivity; [apply filter_length_le|]. rewrite length_map. lia.
  - intros [r [Hr Hs]]. change 1%Z with (Z.of_nat 1). apply Nat2Z.inj_le.
    apply (Hge (code_at (level + 1) (lr r))). unfold col. apply filter_In. split; [|exact Hs].
    apply (in_map (fun r => code_at (level + 1) (lr r))). exact Hr.
Qed.

Lemma children_count_range_witness :
  In ((2020, Some "111"), 2) (compute_children_maps ex_two_leaves 3) /\
  is_some (snd (2020, Some "111")) = true /\
  (2 <= Z.of_nat (List.length (filter (in_group2 3 (2020, Some "111")) ex_two_leaves)))%Z /\
  ((exists r, In r (filter (in_group2 3 (2020, Some "111")) ex_two_leaves) /\
              is_some (code_at (3 + 1) (lr r)) = true) -> (1 <= 2)%Z).
Proof.
  split; [left; reflexivity|].
  apply (children_count_range ex_two_leaves 3 (2020, Some "111") 2).
  - right; right; reflexivity.
  - left; reflexivity.
Defined.

(** ** When the weighted aggregate is absent *)

Lemma Q_of_nat_pos n : (0 < n)%nat -> (0 < Q_of_nat n)%Q.
Proof.
  intros Hn. unfold Q_of_nat. change 0%Q with (inject_Z 0). rewrite <- Zlt_Qlt. lia.
Qed.

Lemma qsum_nonneg {A} (f : A -> Q) l :
  (forall x, In x l -> 0 <= f x)%Q -> (0 <= fold_right Qplus 0 (map f l))%Q.
Proof.
  induction l as [|a l IH]; intros H; simpl; [apply Qle_refl|].
  pose proof (H a (or_introl eq_refl)). pose proof (IH (fun x Hx => H x (or_intror Hx))). lra.
Qed.

Lemma qsum_nonneg_zero {A} (f : A -> Q) l :
  (forall x, In x l -> 0 <= f x)%Q ->
  (fold_right Qplus 0 (map f l) == 0 <-> forall x, In x l -> f x == 0)%Q.
Proof.
  induction l as [|a l IH]; intros H; simpl.
  - split; [intros _ x []|reflexivity].
  - pose proof (H a (or_introl eq_refl)) as Ha.
    pose proof (qsum_nonneg f l (fun x Hx => H x (or_intror Hx))) as Hl.
    specialize (IH (fun x Hx => H x (or_intror Hx))). split.
    + intros E. assert (Ea : (f a == 0)%Q) by lra.
      assert (El : (fold_right Qplus 0 (map f l) == 0)%Q) by lra.
      intros x [<-|Hx]; [exact Ea|]. apply IH; assumption.
    + intros Hall. rewrite (Hall a (or_introl eq_refl)).
      rewrite (proj2 IH (fun x Hx => Hall x (or_intror Hx))). reflexivity.
Qed.

(** When no employment value of a group is negative, the weighted aggregate
    of a metric is absent exactly when every leaf of the group that has a
    value has a missing or zero employment: the denominator, a sum of
    non-negative terms, is then 0 and is replaced by [pd.NA]. *)
Theorem weighted_metric_absent_iff_no_weight i grp :
  (forall r e, In r grp -> emp r = Some e -> (0 <= e)%Z) ->
  (weighted_metric i grp = None <->
   forall r, In r grp -> is_some (metric_at i (lr r)) = true ->
     emp r = None \/ emp r = Some 0).
Proof.
  intros He. unfold weighted_metric, cell_div, replace_zero.
  destruct (weighted_sums i grp) as [Hw _].
  set (contrib := filter (fun r => is_some (metric_at i (lr r))) grp) in Hw.
  assert (Hnn : forall r, In r contrib -> (0 <= emp_or_zero r)%Q).
  { intros r Hr. apply filter_In in Hr as [Hr _]. unfold emp_or_zero, emp_q.
    destruct (emp r) as [e|] eqn:Ee; simpl; [|apply Qle_refl].
    change 0%Q with (inject_Z 0). rewrite <- Zle_Qle. exact (He r e Hr Ee). }
  assert (Hz : forall r, (emp_or_zero r == 0)%Q <-> emp r = None \/ emp r = Some 0).
  { intros r. unfold emp_or_zero, emp_q. destruct (emp r) as [e|]; simpl.
    - change 0%Q with (inject_Z 0). rewrite inject_Z_injective. split.
      + intros ->. right; reflexivity.
      + intros [E|E]; [discriminate|]. injection E as ->. reflexivity.
    - split; [left; reflexivity|reflexivity]. }
  destruct (Qeq_bool _ 0) eqn:E.
  - split; [intros _|reflexivity]. apply Qeq_bool_iff in E. rewrite Hw in E.
    intros r Hr Hs. apply Hz. apply (proj1 (qsum_nonneg_zero _ _ Hnn) E).
    apply filter_In. split; assumption.
  - split; [discriminate|]. intros Hall. exfalso.
    assert (Hsum : (fold_right Qplus 0 (map emp_or_zero contrib) == 0)%Q).
    { apply (qsum_nonneg_zero _ _ Hnn). intros r Hr. apply filter_In in Hr as [Hr Hs].
      apply Hz. exact (Hall r Hr Hs). }
    rewrite <- Hw in Hsum. apply Qeq_bool_iff in Hsum. congruence.
Qed.

Lemma weighted_metric_absent_iff_no_weight_witness :
  weighted_metric 0 ex_single_leaf = None /\ weighted_metric 0 ex_two_leaves <> None.
Proof.
  split.
  - apply (weighted_metric_absent_iff_no_weight 0 ex_single_leaf).
    + intros r e Hr Ee. simpl in Hr. destruct Hr as [<-|[]]. discriminate.
    + intros r Hr _. simpl in Hr. destruct Hr as [<-|[]]. left; reflexivity.
  - rewrite (weighted_metric_absent_iff_no_weight 0 ex_two_leaves).
    + intros H. destruct (H (ex_leaf "1111" "111" "Legislators" (Some (8 # 10)) (Some 10)))
        as [E|E]; [left; reflexivity|reflexivity|discriminate|discriminate].
    + intros r e Hr Ee. simpl in Hr.
      destruct Hr as [<-|[<-|[]]]; injection Ee as <-; lia.
Defined.

(** ** The percentile ranks lie in (0, 1] *)

Lemma count_lt_eq_le x l : (count_lt x l + count_eq x l <= List.length l)%nat.
Proof.
  induction l as [|y l IH]; [unfold count_lt, count_eq; simpl; lia|].
  unfold count_lt, count_eq in *; simpl.
  destruct (Qle_bool x y) eqn:E1; destruct (Qeq_bool y x) eqn:E2; simpl; try lia.
  exfalso. apply Qeq_bool_iff in E2.
  assert (Qle_bool x y = true) by (apply Qle_bool_iff; rewrite E2; apply Qle_refl).
  congruence.
Qed.

Lemma rank_bounds_nat (L C n : nat) :
  (1 <= C)%nat -> (L + C <= n)%nat ->
  (0 < (Q_of_nat L + (Q_of_nat C + 1) / 2) / Q_of_nat n <= 1)%Q.
Proof.
  intros HC Hn.
  assert (Hn0 : (0 < Q_of_nat n)%Q) by (apply Q_of_nat_pos; lia).
  unfold Q_of_nat in *. change (/ 2)%Q with (1 # 2).
  split.
  - apply Qlt_shift_div_l; [exact Hn0|].
    unfold Qlt, Qdiv, Qmult, Qplus, inject_Z. simpl. lia.
  - apply Qle_shift_div_r; [exact Hn0|]. rewrite Qmult_1_l.
    unfold Qle, Qdiv, Qmult, Qplus, inject_Z. simpl. lia.
Qed.

(** Every percentile rank [add_percentiles] computes lies in (0, 1]: it is
    positive, and at most 1 (reached by the largest value of the group when
    it is not tied). *)
Theorem pct_rank_in_unit_interval rows i r q :
  In r rows -> pct_rank rows i r = Some q -> (0 < q <= 1)%Q.
Proof.
  intros Hr H. unfold pct_rank in H.
  destruct (nth i (o_metrics r) None) as [v|] eqn:Ev; [|discriminate].
  injection H as <-.
  assert (Hin : In v (present (metric_col i (filter (same_year_level r) rows)))).
  { apply (In_present_metric _ i r v); [|exact Ev].
    apply filter_In. split; [exact Hr|]. unfold same_year_level. rewrite !Z.eqb_refl. reflexivity. }
  rewrite (rank_pct_formula _ v Hin).
  apply rank_bounds_nat; [apply In_count_eq; exact Hin|apply count_lt_eq_le].
Qed.

Lemma pct_rank_in_unit_interval_witness :
  exists q, pct_rank ex_three_rows 0 (ex_out "1112" (5 # 10)) = Some q /\ (0 < q <= 1)%Q.
Proof.
  eexists. split; [reflexivity|].
  apply (pct_rank_in_unit_interval ex_three_rows 0 (ex_out "1112" (5 # 10))).
  - right; left; reflexivity.
  - reflexivity.
Defined.

(** ** Sorting by a total order *)

Section SortByTotal.

Variable A : Type.
Variable leb : A -> A -> bool.
Hypothesis leb_total : forall a b, leb a b = false -> leb b a = true.

Lemma insert_by_sorted_total x l :
  Sorted (fun a b => leb a b = true) l ->
  Sorted (fun a b => leb a b = true) (insert_by leb x l).
Proof.
  induction l as [|a l IH]; intros H; simpl.
  - repeat constructor.
  - destruct (leb x a) eqn:E.
    + constructor; [exact H|]. constructor. exact E.
    + assert (Hax : leb a x = true) by (apply leb_total; exact E).
      inversion H as [|? ? Hl Hhd]; subst. constructor; [apply IH; exact Hl|].
      destruct l as [|b l]; simpl; [constructor; exact Hax|].
      destruct (leb x b); constructor; [exact Hax|].
      inversion Hhd; assumption.
Qed.

Lemma sort_by_sorted_total l : Sorted (fun a b => leb a b = true) (sort_by leb l).
Proof.
  induction l as [|x l IH]; simpl; [constructor|]. apply insert_by_sorted_total, IH.
Qed.

End SortByTotal.

Lemma StronglySorted_last {A} (R : A -> A -> Prop) l x :
  StronglySorted R (l ++ [x])%list -> forall y, In y l -> R y x.
Proof.
  induction l as [|a l IH]; simpl; intros H y Hy; [contradiction|].
  inversion H as [|? ? Hs Hf]; subst.
  destruct Hy as [<-|Hy]; [|exact (IH Hs y Hy)].
  rewrite Forall_forall in Hf. apply Hf, in_or_app. right; left; reflexivity.
Qed.

Lemma ascii_compare_refl c : Ascii.compare c c = Eq.
Proof. unfold Ascii.compare. apply N.compare_refl. Qed.

Lemma string_leb_refl s : String.leb s s = true.
Proof. destruct (String.leb_total s s); assumption. Qed.

Lemma string_leb_trans a b c :
  String.leb a b = true -> String.leb b c = true -> String.leb a c = true.
Proof.
  revert b c.
  induction a as [|x a IH]; intros [|y b] [|z c]; unfold String.leb; simpl; try easy.
  specialize (IH b c). unfold String.leb in IH. unfold Ascii.compare.
  destruct (N.compare_spec (N_of_ascii x) (N_of_ascii y)) as [Exy|Exy|Exy];
  destruct (N.compare_spec (N_of_ascii y) (N_of_ascii z)) as [Eyz|Eyz|Eyz];
  destruct (N.compare_spec (N_of_ascii x) (N_of_ascii z)) as [Exz|Exz|Exz];
  try lia; try easy.
Qed.

Lemma string_leb_total_false a b : String.leb a b = false -> String.leb b a = true.
Proof. intros H. destruct (String.leb_total a b); congruence. Qed.

Lemma filter_nil_iff {A} (f : A -> bool) l :
  filter f l = [] <-> forall x, In x l -> f x = false.
Proof.
  split.
  - intros H x Hx. destruct (f x) eqn:E; [|reflexivity].
    assert (In x (filter f l)) by (apply filter_In; auto). rewrite H in *. contradiction.
  - induction l as [|a l IH]; intros H; simpl; [reflexivity|].
    rewrite (H a (or_introl eq_refl)). apply IH. intros x Hx. apply H. right; exact Hx.
Qed.

(** [latest_file] raises exactly when no file of the directory matches
    [f"{taxonomy}*.csv"], and then raises [FileNotFoundError] only. Otherwise
    it returns the contents of a matching file whose name is the greatest of
    the matching names. *)
Theorem latest_file_greatest_match files t :
  (forall e, latest_file files t = Err e <->
     e = FileNotFoundError /\
     forall f, In f files ->
       String.prefix (taxonomy_name t) (fst f) && ends_with_csv (fst f) = false) /\
  (forall rows, latest_file files t = Ok rows ->
     exists name, In (name, rows) files /\
       String.prefix (taxonomy_name t) name && ends_with_csv name = true /\
       forall f, In f files ->
         String.prefix (taxonomy_name t) (fst f) && ends_with_csv (fst f) = true ->
         String.leb (fst f) name = true).
Proof.
  unfold latest_file.
  set (m := fun f : string * list ScbRow =>
              String.prefix (taxonomy_name t) (fst f) && ends_with_csv (fst f)).
  set (lebf := fun a b : string * list ScbRow => String.leb (fst a) (fst b)).
  assert (P := sort_by_perm lebf (filter m files)).
  split.
  - intros e. destruct (rev (sort_by lebf (filter m files))) as [|f rest] eqn:E.
    + assert (Hnil : filter m files = []).
      { apply Permutation_length in P. destruct (filter m files); [reflexivity|].
        apply (f_equal (@List.length _)) in E. rewrite length_rev in E. simpl in *. lia. }
      rewrite filter_nil_iff in Hnil. split; [intros H; injection H as <-; auto|].
      intros [-> _]. reflexivity.
    + split; [discriminate|]. intros [_ H].
      assert (Hin : In f (filter m files)).
      { apply (Permutation_in _ P), in_rev. rewrite E. left; reflexivity. }
      apply filter_In in Hin. destruct Hin as [Hf Hm].
      unfold m in Hm. rewrite (H f Hf) in Hm. discriminate.
  - intros rows. destruct (rev (sort_by lebf (filter m files))) as [|f rest] eqn:E;
      [discriminate|].
    intros Hr. injection Hr as <-.
    assert (Hs : sort_by lebf (filter m files) = (rev rest ++ [f])%list).
    { rewrite <- (rev_involutive (sort_by lebf (filter m files))), E. reflexivity. }
    assert (Hss : StronglySorted (fun a b => lebf a b = true) (rev rest ++ [f])%list).
    { rewrite <- Hs. apply Sorted_StronglySorted.
      - intros a b c. unfold lebf. apply string_leb_trans.
      - apply sort_by_sorted_total. intros a b. unfold lebf. apply string_leb_total_false. }
    assert (Hin : In f (filter m files)).
    { apply (Permutation_in _ P). rewrite Hs. apply in_or_app. right; left; reflexivity. }
    apply filter_In in Hin. destruct Hin as [Hf Hm].
    exists (fst f). split; [destruct f; exact Hf|]. split; [exact Hm|].
    intros g Hg Hgm.
    assert (Hg' : In g (rev rest ++ [f])%list).
    { rewrite <- Hs. apply (Permutation_in _ (Permutation_sym P)). apply filter_In. auto. }
    apply in_app_or in Hg'. destruct Hg' as [Hg'|[<-|[]]].
    + exact (StronglySorted_last _ _ _ Hss g Hg').
    + apply string_leb_refl.
Qed.

Lemma latest_file_greatest_match_witness :
  let files := [("ssyk2012_2024.csv", ex_scb); ("ssyk2012_2025.csv", []);
                ("ssyk96_2025.csv", ex_scb)] in
  latest_file files ssyk2012 = Ok [] /\
  (exists name, In (name, []) files /\
     String.prefix (taxonomy_name ssyk2012) name && ends_with_csv name = true /\
     forall f, In f files ->
       String.prefix (taxonomy_name ssyk2012) (fst f) && ends_with_csv (fst f) = true ->
       String.leb (fst f) name = true) /\
  latest_file [("ssyk2012_2025.txt", ex_scb)] ssyk2012 = Err FileNotFoundError.
Proof.
  intros files. split; [reflexivity|]. split.
  - apply (proj2 (latest_file_greatest_match files ssyk2012)). reflexivity.
  - apply (proj1 (latest_file_greatest_match [("ssyk2012_2025.txt", ex_scb)] ssyk2012)).
    split; [reflexivity|]. intros f [<-|[]]. reflexivity.
Defined.

Lemma string_ltb_total a b :
  String.ltb a b = false -> String.eqb a b = false -> String.ltb b a = true.
Proof.
  unfold String.ltb. intros H1 H2. rewrite String.compare_antisym in H1.
  destruct (String.compare b a) eqn:E; simpl in H1.
  - apply String.compare_eq_iff in E. subst. rewrite String.eqb_refl in H2. discriminate.
  - reflexivity.
  - discriminate.
Qed.

Lemma out_leb_total a b : out_leb a b = false -> out_leb b a = true.
Proof.
  unfold out_leb. intros H. apply orb_false_iff in H. destruct H as [H1 H2].
  apply Z.ltb_ge in H1.
  destruct (Z.ltb_spec (o_level b) (o_level a)) as [Hlt|Hge]; [reflexivity|]. simpl.
  assert (Hl : o_level a = o_level b) by lia.
  rewrite Hl, Z.eqb_refl in *. simpl in *.
  apply orb_false_iff in H2. destruct H2 as [H2 H3].
  destruct (String.eqb (o_code a) (o_code b)) eqn:Ec.
  - apply String.eqb_eq in Ec. rewrite Ec, String.eqb_refl in *. simpl in H3.
    apply Z.leb_gt in H3. apply orb_true_iff. right. apply Z.leb_le. lia.
  - rewrite (string_ltb_total _ _ H2 Ec). reflexivity.
Qed.

(** The tables [build_pipeline] returns are sorted by level, then code, then
    year: every row is at most the next one in that order. *)
Theorem build_pipeline_sorted df cols t nch m out :
  build_pipeline df cols t nch m = Ok out ->
  Sorted (fun a b => out_leb a b = true) out.
Proof.
  unfold build_pipeline.
  destruct (aggregate_level df cols nch t 1 m), (aggregate_level df cols nch t 2 m),
    (aggregate_level df cols nch t 3 m); simpl; try discriminate.
  intros H. injection H as <-. apply sort_by_sorted_total. exact out_leb_total.
Qed.

Lemma build_pipeline_sorted_witness :
  exists out,
    build_pipeline ex_two_leaves ["daioe_allapps"] ssyk2012 (compute_children_maps ex_two_leaves)
      simple = Ok out /\
    Sorted (fun a b => out_leb a b = true) out.
Proof.
  eexists. split; [reflexivity|].
  apply (build_pipeline_sorted ex_two_leaves ["daioe_allapps"] ssyk2012
           (compute_children_maps ex_two_leaves) simple).
  reflexivity.
Defined.

(** ** The SCB pull: level totals *)


Lemma zsum_app l1 l2 : zsum (l1 ++ l2)%list = zsum l1 + zsum l2.
Proof. induction l1; simpl; unfold zsum in *; simpl; lia. Qed.

Lemma zsum_perm l1 l2 : Permutation l1 l2 -> zsum l1 = zsum l2.
Proof. induction 1; unfold zsum in *; simpl; lia. Qed.

Lemma zsum_map_ext {A} (g h : A -> Z) l :
  (forall x, In x l -> g x = h x) -> zsum (map g l) = zsum (map h l).
Proof. intros H. f_equal. apply map_ext_in. exact H. Qed.

Lemma zsum_map_plus {A} (g h : A -> Z) l :
  zsum (map (fun x => g x + h x) l) = zsum (map g l) + zsum (map h l).
Proof. induction l; unfold zsum in *; simpl; lia. Qed.

Lemma zsum_map_zero {A} (g : A -> Z) l :
  (forall x, In x l -> g x = 0) -> zsum (map g l) = 0.
Proof.
  induction l as [|a l IH]; intros H; [reflexivity|]. unfold zsum in *; simpl.
  rewrite (H a (or_introl eq_refl)), IH; [reflexivity|]. intros x Hx. apply H. right; exact Hx.
Qed.

Section SumOverKeys.

Variables (A K : Type) (keqb : K -> K -> bool).
Hypothesis keqb_spec : forall a b, keqb a b = true <-> a = b.

Lemma zsum_indicator k0 c ks :
  NoDup ks -> In k0 ks -> zsum (map (fun k => if keqb k0 k then c else 0) ks) = c.
Proof.
  induction ks as [|a ks IH]; intros Hnd Hin; [destruct Hin|].
  inversion Hnd as [|? ? Hna Hnd']; subst. unfold zsum; simpl. fold (zsum (map (fun k => if keqb k0 k then c else 0) ks)).
  destruct (keqb k0 a) eqn:E.
  - apply keqb_spec in E. subst a.
    rewrite zsum_map_zero; [lia|]. intros x Hx.
    destruct (keqb k0 x) eqn:E'; [|reflexivity]. apply keqb_spec in E'. subst x. contradiction.
  - destruct Hin as [Ha|Hin]; [subst a; rewrite (proj2 (keqb_spec k0 k0) eq_refl) in E; discriminate|].
    rewrite IH; [lia|exact Hnd'|exact Hin].
Qed.

(** Summing a value over the groups of a key, over distinct keys covering
    every element, sums it over all elements. *)
Lemma zsum_over_keys (f : A -> K) (v : A -> Z) keys l :
  NoDup keys -> (forall x, In x l -> In (f x) keys) ->
  zsum (map (fun k => zsum (map v (filter (fun x => keqb (f x) k) l))) keys) = zsum (map v l).
Proof.
  intros Hnd. induction l as [|x l IH]; intros Hcov.
  - apply zsum_map_zero. reflexivity.
  - rewrite (zsum_map_ext _ (fun k => (if keqb (f x) k then v x else 0) +
                                      zsum (map v (filter (fun x => keqb (f x) k) l)))).
    + rewrite zsum_map_plus, zsum_indicator, IH.
      * unfold zsum; simpl. reflexivity.
      * intros y Hy. apply Hcov. right; exact Hy.
      * exact Hnd.
      * apply Hcov. left; reflexivity.
    + intros k _. simpl. destruct (keqb (f x) k); unfold zsum; simpl; lia.
Qed.

End SumOverKeys.

Lemma skey_eqb_spec a b : skey_eqb a b = true <-> a = b.
Proof.
  destruct a as [a1 a2], b as [b1 b2]. unfold skey_eqb; simpl.
  rewrite andb_true_iff, !String.eqb_eq. split; [intros [-> ->]; reflexivity|].
  intros H; injection H; auto.
Qed.

Lemma filter_filter_impl {A} (p q : A -> bool) l :
  (forall x, p x = true -> q x = true) -> filter p (filter q l) = filter p l.
Proof.
  intros H. induction l as [|a l IH]; simpl; [reflexivity|].
  destruct (q a) eqn:Eq; simpl.
  - destruct (p a); rewrite IH; reflexivity.
  - destruct (p a) eqn:Ep; [rewrite (H a Ep) in Eq; discriminate|exact IH].
Qed.

Lemma level_frame_rows t level fl o :
  In o (level_frame t level fl) <->
  exists k, In k (map (fun f => (f_year f, level_col level f)) fl) /\
    o = {| so_taxonomy := t; so_year := fst k; so_level := level; so_code := snd k;
           so_value := sum_values (filter (fun f => skey_eqb (f_year f, level_col level f) k) fl) |}.
Proof.
  unfold level_frame. rewrite in_map_iff.
  destruct (dedup_from_spec skey_eqb skey_eqb_spec []
              (map (fun f => (f_year f, level_col level f)) fl)) as [_ Hin].
  split.
  - intros [k [<- Hk]]. exists k. split; [|reflexivity].
    apply (Permutation_in _ (sort_by_perm _ _)) in Hk. apply Hin in Hk. tauto.
  - intros [k [Hk ->]]. exists k. split; [reflexivity|].
    apply (Permutation_in _ (Permutation_sym (sort_by_perm _ _))). apply Hin.
    split; [exact Hk|intros []].
Qed.

Lemma level_frame_year_sum t level fl y :
  zsum (map so_value (filter (fun o => String.eqb (so_year o) y) (level_frame t level fl))) =
  sum_values (filter (fun f => String.eqb (f_year f) y) fl).
Proof.
  unfold level_frame. rewrite filter_map_swap, map_map. simpl.
  set (key := fun f => (f_year f, level_col level f)).
  set (keys := sort_by skey_leb (dedup skey_eqb (map key fl))).
  destruct (dedup_from_spec skey_eqb skey_eqb_spec [] (map key fl)) as [Hnd Hin].
  assert (Hndk : NoDup keys) by
    (apply (Permutation_NoDup (Permutation_sym (sort_by_perm _ _))); exact Hnd).
  rewrite (zsum_map_ext _ (fun k => zsum (map value (filter (fun f => skey_eqb (key f) k)
                                         (filter (fun f => String.eqb (f_year f) y) fl))))).
  - unfold sum_values. fold (zsum (map value (filter (fun f => String.eqb (f_year f) y) fl))).
    apply (zsum_over_keys _ _ skey_eqb skey_eqb_spec key value).
    + apply NoDup_filter. exact Hndk.
    + intros x Hx. apply filter_In in Hx. destruct Hx as [Hx Hy].
      apply filter_In. split.
      * apply (Permutation_in _ (Permutation_sym (sort_by_perm _ _))). apply Hin.
        split; [apply in_map; exact Hx|intros []].
      * exact Hy.
  - intros k Hk. apply filter_In in Hk. destruct Hk as [_ Hk]. unfold sum_values.
    rewrite filter_filter_impl; [reflexivity|].
    intros f Hf. apply skey_eqb_spec in Hf. rewrite <- Hf in Hk. exact Hk.
Qed.

Lemma Permutation_filter_bool {A} (p : A -> bool) l1 l2 :
  Permutation l1 l2 -> Permutation (filter p l1) (filter p l2).
Proof.
  induction 1; simpl.
  - constructor.
  - destruct (p x); [constructor|]; assumption.
  - destruct (p x), (p y); try constructor; reflexivity.
  - eapply Permutation_trans; eassumption.
Qed.

Lemma level_frame_filter_level t m fl level y :
  filter (fun o => Z.eqb (so_level o) level && String.eqb (so_year o) y) (level_frame t m fl) =
  if Z.eqb m level then filter (fun o => String.eqb (so_year o) y) (level_frame t m fl) else [].
Proof.
  destruct (Z.eqb m level) eqn:E.
  - apply filter_ext_in. intros o Ho. apply level_frame_rows in Ho.
    destruct Ho as [k [_ ->]]. simpl. rewrite E. reflexivity.
  - rewrite filter_nil_iff. intros o Ho. apply level_frame_rows in Ho.
    destruct Ho as [k [_ ->]]. simpl. rewrite E. reflexivity.
Qed.

(** The stacked table of [fetch_taxonomy_dataframe] keeps the employment
    totals across levels: for every year, the values of the rows of each
    level 1 to 4 add up to the sum of the values of the kept records of that
    year (every record but the unspecified bucket "0002"). *)
Theorem stack_records_level_totals py_int t recs out :
  stack_records py_int t recs = POk out ->
  exists fl, scb_records py_int recs = POk fl /\ fl <> [] /\
    forall level y, 1 <= level <= 4 ->
      zsum (map so_value (filter (fun o => Z.eqb (so_level o) level && String.eqb (so_year o) y)
                            out)) =
      sum_values (filter (fun f => String.eqb (f_year f) y) fl).
Proof.
  unfold stack_records. destruct (scb_records py_int recs) as [fl|e]; [|discriminate].
  destruct fl as [|f0 fl']; [discriminate|]. intros H. injection H as <-.
  exists (f0 :: fl'). split; [reflexivity|]. split; [discriminate|].
  intros level y Hl.
  rewrite (zsum_perm _ _ (Permutation_map _ (Permutation_filter_bool _ _ _ (sort_by_perm _ _)))).
  rewrite !filter_app, !level_frame_filter_level, !map_app, !zsum_app.
  assert (Hc : level = 1 \/ level = 2 \/ level = 3 \/ level = 4) by lia.
  destruct Hc as [-> | [-> | [-> | ->]]]; simpl; rewrite level_frame_year_sum; unfold zsum; simpl; lia.
Qed.

Lemma stack_records_level_totals_witness :
  exists out, stack_records ex_py_int ssyk2012 ex_records = POk out /\
  exists fl, scb_records ex_py_int ex_records = POk fl /\ fl <> [] /\
    forall level y, 1 <= level <= 4 ->
      zsum (map so_value (filter (fun o => Z.eqb (so_level o) level && String.eqb (so_year o) y)
                            out)) =
      sum_values (filter (fun f => String.eqb (f_year f) y) fl).
Proof.
  eexists. split; [reflexivity|].
  apply (stack_records_level_totals ex_py_int ssyk2012 ex_records). reflexivity.
Defined.

Lemma scb_records_not_runtime py_int recs : scb_records py_int recs <> PErr PullRuntimeError.
Proof.
  induction recs as [|r rs IH]; simpl; [discriminate|].
  destruct (rec_key r) as [|code [|y rest]]; try discriminate.
  destruct (String.eqb code "0002"); [exact IH|].
  destruct (rec_values r) as [|v vs]; [discriminate|].
  destruct (py_int v); [|discriminate].
  destruct (scb_records py_int rs); [discriminate|exact IH].
Qed.

Lemma scb_records_empty py_int recs :
  scb_records py_int recs = POk [] <->
  Forall (fun r => exists y rest, rec_key r = "0002" :: y :: rest) recs.
Proof.
  induction recs as [|r rs IH]; simpl.
  - split; [constructor|reflexivity].
  - rewrite Forall_cons_iff, <- IH.
    destruct (rec_key r) as [|code [|y rest]] eqn:Ek.
    + split; [discriminate|]. intros [[y [rest H]] _]. discriminate.
    + split; [discriminate|]. intros [[y [rest H]] _]. discriminate.
    + destruct (String.eqb code "0002") eqn:Ec.
      * apply String.eqb_eq in Ec. subst code. split; [|tauto].
        intros H. split; [exists y, rest; reflexivity|exact H].
      * split.
        -- destruct (rec_values r) as [|v vs]; [discriminate|].
           destruct (py_int v); [|discriminate].
           destruct (scb_records py_int rs); discriminate.
        -- intros [[y' [rest' H]] _]. injection H as -> _ _. rewrite String.eqb_refl in Ec.
           discriminate.
Qed.

(** [fetch_taxonomy_dataframe] raises "SCB returned no data" exactly when
    every fetched record is the unspecified bucket "0002" (in particular when
    nothing is fetched). *)
Theorem stack_records_runtime_error py_int t recs :
  stack_records py_int t recs = PErr PullRuntimeError <->
  Forall (fun r => exists y rest, rec_key r = "0002" :: y :: rest) recs.
Proof.
  rewrite <- (scb_records_empty py_int recs). unfold stack_records.
  assert (H := scb_records_not_runtime py_int recs).
  destruct (scb_records py_int recs) as [[|f fl]|e].
  - tauto.
  - split; discriminate.
  - split; intros E; [|discriminate]. injection E as ->. contradiction.
Qed.

Lemma stack_records_runtime_error_witness :
  stack_records ex_py_int ssyk2012 [ex_record "0002" "2023" "1"] = PErr PullRuntimeError /\
  stack_records ex_py_int ssyk2012 [] = PErr PullRuntimeError.
Proof.
  split; apply stack_records_runtime_error.
  - constructor; [|constructor]. exists "2023", []. reflexivity.
  - constructor.
Defined.

Lemma substring_prefix_length n s :
  (n <= String.length s)%nat -> String.length (substring 0 n s) = n.
Proof.
  revert s. induction n as [|n IH]; intros [|c s] H; simpl in *; try lia.
  rewrite IH; [reflexivity|lia].
Qed.

Lemma scb_records_flat py_int recs fl :
  scb_records py_int recs = POk fl ->
  Forall (fun f => (4 <= String.length (code_4 f))%nat /\
                   code_3 f = substring 0 3 (code_4 f) /\
                   code_2 f = substring 0 2 (code_4 f) /\
                   code_1 f = substring 0 1 (code_4 f)) fl.
Proof.
  revert fl. induction recs as [|r rs IH]; intros fl; simpl.
  - intros H. injection H as <-. constructor.
  - destruct (rec_key r) as [|code [|y rest]]; try discriminate.
    destruct (String.eqb code "0002"); [exact (IH fl)|].
    destruct (rec_values r) as [|v vs]; [discriminate|].
    destruct (py_int v); [|discriminate].
    destruct (scb_records py_int rs) as [fl'|e]; [|discriminate].
    intros H. injection H as <-. constructor; [|exact (IH fl' eq_refl)].
    simpl. rewrite zfill_length. repeat split; lia.
Qed.

Lemma level_frame_in_flat t level fl o :
  In o (level_frame t level fl) ->
  exists f, In f fl /\ so_taxonomy o = t /\ so_level o = level /\
    so_year o = f_year f /\ so_code o = level_col level f.
Proof.
  intros Ho. apply level_frame_rows in Ho. destruct Ho as [k [Hk ->]].
  apply in_map_iff in Hk. destruct Hk as [f [<- Hf]]. exists f. simpl. auto.
Qed.

Lemma level_frame_of_flat t level fl f :
  In f fl -> exists o, In o (level_frame t level fl) /\
    so_year o = f_year f /\ so_level o = level /\ so_code o = level_col level f.
Proof.
  intros Hf.
  exists {| so_taxonomy := t; so_year := f_year f; so_level := level;
            so_code := level_col level f;
            so_value := sum_values (filter (fun g => skey_eqb (f_year g, level_col level g)
                                                      (f_year f, level_col level f)) fl) |}.
  split.
  - apply level_frame_rows. exists (f_year f, level_col level f).
    split; [apply (in_map (fun g => (f_year g, level_col level g))); exact Hf|reflexivity].
  - simpl. auto.
Qed.

Lemma stack_records_rows py_int t recs out o :
  stack_records py_int t recs = POk out -> In o out ->
  exists fl, scb_records py_int recs = POk fl /\
    (In o (level_frame t 4 fl) \/ In o (level_frame t 3 fl) \/
     In o (level_frame t 2 fl) \/ In o (level_frame t 1 fl)).
Proof.
  unfold stack_records. destruct (scb_records py_int recs) as [[|f fl]|e]; try discriminate.
  intros H Ho. injection H as <-. exists (f :: fl). split; [reflexivity|].
  apply (Permutation_in _ (sort_by_perm _ _)) in Ho. rewrite !in_app_iff in Ho. exact Ho.
Qed.

(** The codes of the stacked table have the width of their level: exactly 1,
    2 or 3 characters on levels 1 to 3 and at least 4 on level 4 ([zfill(4)]
    pads, it never cuts); every row carries the requested taxonomy. *)
Theorem stack_records_code_widths py_int t recs out :
  stack_records py_int t recs = POk out ->
  Forall (fun o => so_taxonomy o = t /\
    ((so_level o = 4 /\ (4 <= String.length (so_code o))%nat) \/
     (1 <= so_level o <= 3 /\ String.length (so_code o) = Z.to_nat (so_level o)))) out.
Proof.
  intros H. apply Forall_forall. intros o Ho.
  destruct (stack_records_rows _ _ _ _ o H Ho) as [fl [Hfl Hin]].
  assert (Hw := scb_records_flat _ _ _ Hfl). rewrite Forall_forall in Hw.
  destruct Hin as [Hin|[Hin|[Hin|Hin]]];
    destruct (level_frame_in_flat _ _ _ _ Hin) as [f [Hf [Ht [Hl [_ Hc]]]]];
    destruct (Hw f Hf) as [H4 [H3 [H2 H1]]];
    split; try exact Ht; rewrite Hl, Hc; simpl.
  - left. split; [reflexivity|exact H4].
  - right. split; [lia|]. rewrite H3. apply substring_prefix_length. lia.
  - right. split; [lia|]. rewrite H2. apply substring_prefix_length. lia.
  - right. split; [lia|]. rewrite H1. apply substring_prefix_length. lia.
Qed.

Lemma stack_records_code_widths_witness :
  exists out, stack_records ex_py_int ssyk2012 ex_records = POk out /\
  Forall (fun o => so_taxonomy o = ssyk2012 /\
    ((so_level o = 4 /\ (4 <= String.length (so_code o))%nat) \/
     (1 <= so_level o <= 3 /\ String.length (so_code o) = Z.to_nat (so_level o)))) out.
Proof.
  eexists. split; [reflexivity|].
  apply (stack_records_code_widths ex_py_int ssyk2012 ex_records). reflexivity.
Defined.

(** The levels of the stacked table nest: every code of level 1 to 3 is the
    first 1 to 3 characters of a level-4 code of the same year in the table. *)
Theorem stack_records_codes_nest py_int t recs out o :
  stack_records py_int t recs = POk out -> In o out -> 1 <= so_level o <= 3 ->
  exists o4, In o4 out /\ so_level o4 = 4 /\ so_year o4 = so_year o /\
    so_code o = substring 0 (Z.to_nat (so_level o)) (so_code o4).
Proof.
  intros H Ho Hl.
  destruct (stack_records_rows _ _ _ _ o H Ho) as [fl [Hfl Hin]].
  assert (Hw := scb_records_flat _ _ _ Hfl). rewrite Forall_forall in Hw.
  assert (Hsub : forall f, In f fl ->
            exists o4, In o4 out /\ so_level o4 = 4 /\ so_year o4 = f_year f /\
                       so_code o4 = code_4 f).
  { intros f Hf. destruct (level_frame_of_flat t 4 fl f Hf) as [o4 [Ho4 [Hy [Hl4 Hc]]]].
    exists o4. split; [|auto].
    unfold stack_records in H. rewrite Hfl in H. destruct fl as [|f0 fl']; [destruct Hf|].
    injection H as <-. apply (Permutation_in _ (Permutation_sym (sort_by_perm _ _))).
    apply in_app_iff. left. exact Ho4. }
  destruct Hin as [Hin|[Hin|[Hin|Hin]]];
    destruct (level_frame_in_flat _ _ _ _ Hin) as [f [Hf [_ [Hlv [Hy Hc]]]]];
    rewrite Hlv in *; try lia;
    destruct (Hsub f Hf) as [o4 [Ho4 [Hl4 [Hy4 Hc4]]]];
    exists o4; (split; [exact Ho4|]); (split; [exact Hl4|]); (split; [congruence|]);
    rewrite Hc, Hc4; destruct (Hw f Hf) as [_ [H3 [H2 H1]]]; simpl; assumption.
Qed.

Lemma stack_records_codes_nest_witness :
  exists out, stack_records ex_py_int ssyk2012 ex_records = POk out /\
  exists o4, In o4 out /\ so_level o4 = 4 /\ so_year o4 = "2023" /\
    "011" = substring 0 3 (so_code o4).
Proof.
  eexists. split; [reflexivity|].
  apply (stack_records_codes_nest ex_py_int ssyk2012 ex_records _
           {| so_taxonomy := ssyk2012; so_year := "2023"; so_level := 3; so_code := "011";
              so_value := 12 |}).
  - reflexivity.
  - vm_compute. tauto.
  - simpl; lia.
Defined.

Lemma scb_out_leb_total a b : scb_out_leb a b = false -> scb_out_leb b a = true.
Proof.
  unfold scb_out_leb. intros H. apply orb_false_iff in H. destruct H as [H1 H2].
  destruct (String.eqb (so_year a) (so_year b)) eqn:Ey.
  - apply String.eqb_eq in Ey. rewrite Ey, String.eqb_refl in *. simpl in *.
    apply orb_true_iff. right.
    apply orb_false_iff in H2. destruct H2 as [H2 H3]. apply Z.ltb_ge in H2.
    destruct (Z.ltb_spec (so_level b) (so_level a)) as [Hlt|Hge]; [reflexivity|]. simpl.
    assert (Hl : so_level a = so_level b) by lia.
    rewrite Hl, Z.eqb_refl in *. simpl in *. apply string_leb_total_false. exact H3.
  - rewrite (string_ltb_total _ _ H1 Ey). reflexivity.
Qed.


Lemma level_frame_keys_nodup t level fl : NoDup (map scb_out_key (level_frame t level fl)).
Proof.
  unfold level_frame. rewrite map_map. unfold scb_out_key; simpl.
  destruct (dedup_from_spec skey_eqb skey_eqb_spec []
              (map (fun f => (f_year f, level_col level f)) fl)) as [Hnd _].
  apply NoDup_map_NoDup_ForallPairs.
  - red. intros [a1 a2] [b1 b2] _ _ E. simpl in E. injection E. intros -> ->. reflexivity.
  - apply (Permutation_NoDup (Permutation_sym (sort_by_perm _ _))). exact Hnd.
Qed.

Lemma level_frame_keys_level t level fl x :
  In x (map scb_out_key (level_frame t level fl)) -> snd (fst x) = level.
Proof.
  intros Hx. apply in_map_iff in Hx. destruct Hx as [o [<- Ho]].
  destruct (level_frame_in_flat _ _ _ _ Ho) as [f [_ [_ [Hl _]]]]. exact Hl.
Qed.

Lemma nodup_level_app t l fl rest :
  (forall x, In x (map scb_out_key rest) -> snd (fst x) <> l) ->
  NoDup (map scb_out_key rest) ->
  NoDup (map scb_out_key (level_frame t l fl ++ rest)%list).
Proof.
  intros Hd Hr. rewrite map_app. apply NoDup_app; [apply level_frame_keys_nodup|exact Hr|].
  intros x Hx Hx'. apply (Hd x Hx'). exact (level_frame_keys_level _ _ _ _ Hx).
Qed.

(** The stacked table has one row per (year, level, code), and its rows are
    sorted by year, then level, then code. *)
Theorem stack_records_sorted_unique py_int t recs out :
  stack_records py_int t recs = POk out ->
  Sorted (fun a b => scb_out_leb a b = true) out /\ NoDup (map scb_out_key out).
Proof.
  unfold stack_records. destruct (scb_records py_int recs) as [[|f fl]|e]; try discriminate.
  intros H. injection H as <-. split.
  - apply sort_by_sorted_total. exact scb_out_leb_total.
  - apply (Permutation_NoDup (Permutation_map _ (Permutation_sym (sort_by_perm _ _)))).
    set (g := f :: fl).
    apply nodup_level_app.
    { intros x Hx. rewrite !map_app, !in_app_iff in Hx.
      destruct Hx as [Hx|[Hx|Hx]]; apply level_frame_keys_level in Hx; rewrite Hx; lia. }
    apply nodup_level_app.
    { intros x Hx. rewrite !map_app, !in_app_iff in Hx.
      destruct Hx as [Hx|Hx]; apply level_frame_keys_level in Hx; rewrite Hx; lia. }
    apply nodup_level_app.
    { intros x Hx. apply level_frame_keys_level in Hx; rewrite Hx; lia. }
    apply level_frame_keys_nodup.
Qed.

Lemma stack_records_sorted_unique_witness :
  exists out, stack_records ex_py_int ssyk2012 ex_records = POk out /\
  Sorted (fun a b => scb_out_leb a b = true) out /\ NoDup (map scb_out_key out).
Proof.
  eexists. split; [reflexivity|].
  apply (stack_records_sorted_unique ex_py_int ssyk2012 ex_records). reflexivity.
Defined.

(** ** One output row per leaf row and per group *)

Lemma aggregate_level_key_rows df cols t level m rows :
  aggregate_level df cols (compute_children_maps df) t level m = Ok rows ->
  map (fun o => (o_year o, o_code o, o_label o)) rows =
    map (fun k : key3 => (fst (fst k), astype_str (snd (fst k)), snd k)) (group_keys3 level df) /\
  Forall (fun o => o_level o = level /\ o_taxonomy o = t) rows.
Proof.
  unfold aggregate_level. destruct (negb _); [discriminate|]. intros H. injection H as <-.
  rewrite (left_merge_one_each key2_eqb key2_eqb_spec _ _ _ (children_keys_nodup df level)).
  rewrite !map_map. split.
  - apply map_ext. intros [[y c] l]. reflexivity.
  - apply Forall_forall. intros o Ho.
    apply in_map_iff in Ho as [[[y c] l] [<- _]]. split; reflexivity.
Qed.

Lemma map_filter_set_pct {B} (g : OutRow -> B) (p : OutRow -> bool) (f : OutRow -> list (option Q)) rows :
  (forall o ps, g {| o_taxonomy := o_taxonomy o; o_level := o_level o; o_code := o_code o;
                     o_label := o_label o; o_year := o_year o;
                     o_n_children := o_n_children o; o_metrics := o_metrics o;
                     o_pct := ps |} = g o) ->
  (forall o ps, p {| o_taxonomy := o_taxonomy o; o_level := o_level o; o_code := o_code o;
                     o_label := o_label o; o_year := o_year o;
                     o_n_children := o_n_children o; o_metrics := o_metrics o;
                     o_pct := ps |} = p o) ->
  map g (filter p (map (fun r => {| o_taxonomy := o_taxonomy r; o_level := o_level r;
                                    o_code := o_code r; o_label := o_label r; o_year := o_year r;
                                    o_n_children := o_n_children r; o_metrics := o_metrics r;
                                    o_pct := f r |}) rows)) = map g (filter p rows).
Proof.
  intros Hg Hp. induction rows as [|o rows IH]; simpl; [reflexivity|].
  rewrite Hp. destruct (p o); simpl; [rewrite Hg, IH|exact IH]; reflexivity.
Qed.

Lemma add_percentiles_filter_map {B} (g : OutRow -> B) (p : OutRow -> bool) rows cols :
  (forall o ps, g {| o_taxonomy := o_taxonomy o; o_level := o_level o; o_code := o_code o;
                     o_label := o_label o; o_year := o_year o;
                     o_n_children := o_n_children o; o_metrics := o_metrics o;
                     o_pct := ps |} = g o) ->
  (forall o ps, p {| o_taxonomy := o_taxonomy o; o_level := o_level o; o_code := o_code o;
                     o_label := o_label o; o_year := o_year o;
                     o_n_children := o_n_children o; o_metrics := o_metrics o;
                     o_pct := ps |} = p o) ->
  map g (filter p (add_percentiles rows cols)) = map g (filter p rows).
Proof.
  intros Hg Hp. unfold add_percentiles. apply map_filter_set_pct; assumption.
Qed.

Lemma filter_level_rows (l : list OutRow) lv level :
  Forall (fun o => o_level o = lv /\ o_taxonomy o = o_taxonomy o) l ->
  filter (fun o => Z.eqb (o_level o) level) l = if Z.eqb lv level then l else [].
Proof.
  induction 1 as [|o l [Ho _] _ IH]; simpl; [destruct (Z.eqb lv level); reflexivity|].
  rewrite Ho, IH. destruct (Z.eqb lv level); reflexivity.
Qed.

Lemma Forall_level_only (l : list OutRow) lv t :
  Forall (fun o => o_level o = lv /\ o_taxonomy o = t) l ->
  Forall (fun o => o_level o = lv /\ o_taxonomy o = o_taxonomy o) l.
Proof. apply Forall_impl. intros o [H _]. split; [exact H|reflexivity]. Qed.

(** The table [build_pipeline] returns, with the children counts of the run,
    holds one level-4 row for each leaf row, carrying the leaf's year, code
    (rendered by [astype(str)]), label and metric values, and, at each level
    1, 2 and 3, one row for each (year, code, label) group key; every row
    carries the requested taxonomy and a level between 1 and 4. *)
Theorem build_pipeline_one_row_per_leaf_and_group df cols t m out :
  build_pipeline df cols t (compute_children_maps df) m = Ok out ->
  Permutation
    (map (fun o => (o_year o, o_code o, o_label o, o_metrics o))
       (filter (fun o => Z.eqb (o_level o) 4) out))
    (map (fun r => (year (lr r), astype_str (code4 (lr r)), label4 (lr r), metrics (lr r))) df) /\
  (forall level, (level = 1 \/ level = 2 \/ level = 3) ->
     Permutation
       (map (fun o => (o_year o, o_code o, o_label o))
          (filter (fun o => Z.eqb (o_level o) level) out))
       (map (fun k : key3 => (fst (fst k), astype_str (snd (fst k)), snd k))
          (group_keys3 level df))) /\
  Forall (fun o => o_taxonomy o = t /\ 1 <= o_level o <= 4) out.
Proof.
  unfold build_pipeline.
  destruct (aggregate_level df cols (compute_children_maps df) t 1 m) as [l1|e] eqn:H1;
    cbn [rbind]; [|discriminate].
  destruct (aggregate_level df cols (compute_children_maps df) t 2 m) as [l2|e] eqn:H2;
    cbn [rbind]; [|discriminate].
  destruct (aggregate_level df cols (compute_children_maps df) t 3 m) as [l3|e] eqn:H3;
    cbn [rbind]; [|discriminate].
  intros H. injection H as <-.
  apply aggregate_level_key_rows in H1 as [K1 F1], H2 as [K2 F2], H3 as [K3 F3].
  rewrite base_level_four_map.
  set (l4 := map _ df).
  assert (F4 : Forall (fun o => o_level o = 4 /\ o_taxonomy o = t) l4).
  { apply Forall_forall. intros o Ho. apply in_map_iff in Ho as [r [<- _]]. split; reflexivity. }
  set (sorted := sort_by out_leb (add_percentiles (l1 ++ l2 ++ l3 ++ l4)%list cols)).
  assert (P := sort_by_perm out_leb (add_percentiles (l1 ++ l2 ++ l3 ++ l4)%list cols)).
  fold sorted in P.
  assert (Hsplit : forall level, filter (fun o => Z.eqb (o_level o) level) (l1 ++ l2 ++ l3 ++ l4)%list =
            ((if Z.eqb 1 level then l1 else []) ++ (if Z.eqb 2 level then l2 else []) ++
             (if Z.eqb 3 level then l3 else []) ++ (if Z.eqb 4 level then l4 else []))%list).
  { intros level. rewrite !filter_app.
    rewrite (filter_level_rows l1 1 level (Forall_level_only _ _ _ F1)),
            (filter_level_rows l2 2 level (Forall_level_only _ _ _ F2)),
            (filter_level_rows l3 3 level (Forall_level_only _ _ _ F3)),
            (filter_level_rows l4 4 level (Forall_level_only _ _ _ F4)).
    reflexivity. }
  split; [|split].
  - eapply Permutation_trans; [apply Permutation_map, Permutation_filter_bool, P|].
    rewrite add_percentiles_filter_map by reflexivity.
    rewrite Hsplit. simpl. unfold l4. rewrite map_map. reflexivity.
  - intros level Hl.
    eapply Permutation_trans; [apply Permutation_map, Permutation_filter_bool, P|].
    rewrite add_percentiles_filter_map by reflexivity.
    rewrite Hsplit. destruct Hl as [-> | [-> | ->]]; simpl; rewrite ?app_nil_r.
    + rewrite K1. reflexivity.
    + rewrite K2. reflexivity.
    + rewrite K3. reflexivity.
  - apply Forall_forall. intros o Ho.
    apply (Permutation_in _ P) in Ho. unfold add_percentiles in Ho.
    apply in_map_iff in Ho as [o' [<- Ho']]. cbn [o_taxonomy o_level].
    rewrite !in_app_iff in Ho'.
    destruct Ho' as [Ho'|[Ho'|[Ho'|Ho']]];
      [apply (proj1 (Forall_forall _ _) F1) in Ho'|apply (proj1 (Forall_forall _ _) F2) in Ho'
      |apply (proj1 (Forall_forall _ _) F3) in Ho'|apply (proj1 (Forall_forall _ _) F4) in Ho'];
      destruct Ho' as [-> ->]; split; [reflexivity|lia|reflexivity|lia|reflexivity|lia|reflexivity|lia].
Qed.

Lemma build_pipeline_one_row_per_leaf_and_group_witness :
  exists out,
    build_pipeline ex_two_labels ["daioe_allapps"] ssyk2012 (compute_children_maps ex_two_labels)
      weighted = Ok out /\
    Permutation
      (map (fun o => (o_year o, o_code o, o_label o, o_metrics o))
         (filter (fun o => Z.eqb (o_level o) 4) out))
      (map (fun r => (year (lr r), astype_str (code4 (lr r)), label4 (lr r), metrics (lr r)))
         ex_two_labels) /\
    (forall level, (level = 1 \/ level = 2 \/ level = 3) ->
       Permutation
         (map (fun o => (o_year o, o_code o, o_label o))
            (filter (fun o => Z.eqb (o_level o) level) out))
         (map (fun k : key3 => (fst (fst k), astype_str (snd (fst k)), snd k))
            (group_keys3 level ex_two_labels))) /\
    Forall (fun o => o_taxonomy o = ssyk2012 /\ 1 <= o_level o <= 4) out.
Proof.
  eexists. split; [reflexivity|].
  apply (build_pipeline_one_row_per_leaf_and_group ex_two_labels ["daioe_allapps"] ssyk2012 weighted).
  reflexivity.
Defined.
